(** * First UV Pro API: the in-memory collection engine of [main.py]

    A shallow embedding of the FastAPI handlers of [src/main.py] and of the
    pydantic schemas they are declared with.

    - A Python [str] is a [string] and [len] is [String.length];
      [str.lower] and [str.strip] work on Unicode text and are taken as
      the functions of the library, which the handlers are given.
    - A Python [int] is a [Z], a Python [float] a binary64 [float].
    - The pydantic models are mutable Python objects: the two dictionaries
      [users_db] and [items_db] hold references ([loc]) into a heap of
      objects, and [setattr] rewrites the object in the heap.
    - A Python [dict] keeps insertion order: it is an association list
      whose keys are distinct.
    - [uuid4()] and [datetime.now()] are inputs of the create handlers. *)

From Stdlib Require Import ZArith String Ascii.
From Stdlib Require Import Floats.PrimFloat Floats.SpecFloat Floats.FloatOps.
From stdpp Require Import base option list strings gmap.

Local Open Scope string_scope.
Local Open Scope Z_scope.

(** ** Values *)

(** The value of [datetime.now()]. *)
Definition datetime := Z.

(** The identity of a Python object. *)
Definition loc := nat.

(** A member of a request body: left out, or given; a given member is JSON
    [null] ([Given None]) or a value. *)
Inductive field (A : Type) : Type :=
  | Absent
  | Given (v : option A).
Arguments Absent {A}.
Arguments Given {A} v.

(** What an endpoint answers: the handler's return value, the
    [HTTPException] with status 404, the 422 of a request that fails its
    schema, or an exception that is not caught (a 500). *)
Inductive response (A : Type) : Type :=
  | Ok (a : A)
  | NotFound
  | ValidationError
  | ServerError.
Arguments Ok {A} a.
Arguments NotFound {A}.
Arguments ValidationError {A}.
Arguments ServerError {A}.

(** ** Python dictionaries, in insertion order *)

Section dict.
Context {V : Type}.

(** [d[k]], [None] standing for [k not in d]. *)
Fixpoint dict_get (d : list (string * V)) (k : string) : option V :=
  match d with
  | [] => None
  | (k', v) :: d' => if String.eqb k k' then Some v else dict_get d' k
  end.

(** [d[k] = v]: a key that is there keeps its place, a new key goes last. *)
Fixpoint dict_set (d : list (string * V)) (k : string) (v : V)
  : list (string * V) :=
  match d with
  | [] => [(k, v)]
  | (k', v') :: d' =>
      if String.eqb k k' then (k, v) :: d' else (k', v') :: dict_set d' k v
  end.

(** [del d[k]]: the other entries keep their order. *)
Definition dict_del (d : list (string * V)) (k : string)
  : list (string * V) :=
  List.filter (fun e => negb (String.eqb k (fst e))) d.

(** [d.values()] *)
Definition dict_values (d : list (string * V)) : list V := List.map snd d.

(** [d.keys()] *)
Definition dict_keys (d : list (string * V)) : list string := List.map fst d.
End dict.

(** ** Slices *)

(** The index a slice bound [i] stands for in a sequence of length [n]
    (what [slice.indices] computes for a step of 1). *)
Definition slice_index (n i : Z) : Z :=
  if i <? 0 then Z.max (i + n) 0 else Z.min i n.

(** [l[a:b]] *)
Definition py_slice {A : Type} (l : list A) (a b : Z) : list A :=
  let n := Z.of_nat (List.length l) in
  let lo := slice_index n a in
  let hi := slice_index n b in
  firstn (Z.to_nat (hi - lo)) (skipn (Z.to_nat lo) l).

(** A list comprehension [[x for x in l if test x]] whose test may raise:
    [None] is the exception. *)
Fixpoint comprehension {A : Type} (test : A -> option bool) (l : list A)
  : option (list A) :=
  match l with
  | [] => Some []
  | x :: l' =>
      match test x with
      | None => None
      | Some b =>
          match comprehension test l' with
          | None => None
          | Some r => Some (if b then x :: r else r)
          end
      end
  end.

(** ** Strings *)

(** [needle in hay] for two strings. *)
Fixpoint str_in (needle hay : string) : bool :=
  String.prefix needle hay ||
  match hay with
  | EmptyString => false
  | String _ hay' => str_in needle hay'
  end.

(** ** The pydantic schemas *)

(** [class User(BaseModel)]. An attribute of the object can hold [None]:
    [id] and [created_at] are declared [Optional], and [setattr] on a model
    does not validate what it is given. *)
Module User.
Record t : Type := mk {
  id : option string;
  name : option string;
  email : option string;
  age : option Z;
  created_at : option datetime
}.
End User.

(** The JSON body a [User] is parsed from. *)
Module UserBody.
Record t : Type := mk {
  id : field string;
  name : field string;
  email : field string;
  age : field Z;
  created_at : field datetime
}.
End UserBody.

(** [class UserUpdate(BaseModel)]: every member is [Optional] with default
    [None]; [Absent] is a member that was not set. *)
Module UserUpdate.
Record t : Type := mk {
  name : field string;
  email : field string;
  age : field Z
}.
End UserUpdate.

(** [class Item(BaseModel)] *)
Module Item.
Record t : Type := mk {
  id : option string;
  title : option string;
  description : option string;
  price : option float;
  quantity : option Z;
  created_at : option datetime
}.
End Item.

(** The JSON body an [Item] is parsed from. *)
Module ItemBody.
Record t : Type := mk {
  id : field string;
  title : field string;
  description : field string;
  price : field float;
  quantity : field Z;
  created_at : field datetime
}.
End ItemBody.

(** [class ItemUpdate(BaseModel)] *)
Module ItemUpdate.
Record t : Type := mk {
  title : field string;
  description : field string;
  price : field float;
  quantity : field Z
}.
End ItemUpdate.

(** *** Field constraints *)

(** [Field(min_length=lo, max_length=hi)] *)
Definition str_len_ok (lo hi : nat) (s : string) : bool :=
  (lo <=? String.length s)%nat && (String.length s <=? hi)%nat.

(** [Field(ge=0, le=150)] *)
Definition age_ok (a : Z) : bool := (0 <=? a) && (a <=? 150).

(** [Field(gt=0)] on a float. *)
Definition price_ok (p : float) : bool := PrimFloat.ltb 0%float p.

(** [Field(ge=0)] on an int. *)
Definition quantity_ok (q : Z) : bool := 0 <=? q.

(** [Query(ge=0)] on a float. *)
Definition bound_ok (p : float) : bool := PrimFloat.leb 0%float p.

(** A constraint as a parser that keeps the value. *)
Definition check {A : Type} (ok : A -> bool) (v : A) : option A :=
  if ok v then Some v else None.

(** A required member, [x: T = Field(...)]: it must be given and not null. *)
Definition required {A B : Type} (parse : A -> option B) (f : field A)
  : option B :=
  match f with
  | Given (Some v) => parse v
  | _ => None
  end.

(** [x: Optional[T] = None] on a model that is stored: what is given, or
    [None]. *)
Definition optional {A : Type} (f : field A) : option A :=
  match f with
  | Absent => None
  | Given v => v
  end.

(** [x: Optional[T] = Field(None, ...)] on an update: a member that is left
    out stays unset, [null] is accepted as it is, and a value must pass the
    constraint. *)
Definition optional_field {A B : Type} (parse : A -> option B) (f : field A)
  : option (field B) :=
  match f with
  | Absent => Some Absent
  | Given None => Some (Given None)
  | Given (Some v) =>
      match parse v with
      | Some v' => Some (Given (Some v'))
      | None => None
      end
  end.

(** [x: int = Field(default=d, ge=0)] *)
Definition defaulted {A : Type} (d : A) (parse : A -> option A) (f : field A)
  : option A :=
  match f with
  | Absent => Some d
  | Given None => None
  | Given (Some v) => parse v
  end.

Section schemas.
(** [EmailStr]: the validator of the [email-validator] package, which
    answers the normalised address or rejects the string. *)
Variable EmailStr : string -> option string.

(** Parsing a request body as a [User]. *)
Definition User_validate (b : UserBody.t) : option User.t :=
  match required (check (str_len_ok 1 100)) (UserBody.name b),
        required EmailStr (UserBody.email b),
        required (check age_ok) (UserBody.age b) with
  | Some n, Some e, Some a =>
      Some (User.mk (optional (UserBody.id b)) (Some n) (Some e) (Some a)
              (optional (UserBody.created_at b)))
  | _, _, _ => None
  end.

(** Parsing a request body as a [UserUpdate]. *)
Definition UserUpdate_validate (b : UserUpdate.t) : option UserUpdate.t :=
  match optional_field (check (str_len_ok 1 100)) (UserUpdate.name b),
        optional_field EmailStr (UserUpdate.email b),
        optional_field (check age_ok) (UserUpdate.age b) with
  | Some n, Some e, Some a => Some (UserUpdate.mk n e a)
  | _, _, _ => None
  end.
End schemas.

(** Parsing a request body as an [Item]. *)
Definition Item_validate (b : ItemBody.t) : option Item.t :=
  match required (check (str_len_ok 1 200)) (ItemBody.title b),
        required (check price_ok) (ItemBody.price b),
        defaulted 1 (check quantity_ok) (ItemBody.quantity b) with
  | Some t, Some p, Some q =>
      Some (Item.mk (optional (ItemBody.id b)) (Some t)
              (optional (ItemBody.description b)) (Some p) (Some q)
              (optional (ItemBody.created_at b)))
  | _, _, _ => None
  end.

(** Parsing a request body as an [ItemUpdate]. *)
Definition ItemUpdate_validate (b : ItemUpdate.t) : option ItemUpdate.t :=
  match optional_field (check (str_len_ok 1 200)) (ItemUpdate.title b),
        optional_field (check price_ok) (ItemUpdate.price b),
        optional_field (check quantity_ok) (ItemUpdate.quantity b) with
  | Some t, Some p, Some q =>
      Some (ItemUpdate.mk t (ItemUpdate.description b) p q)
  | _, _, _ => None
  end.

(** ** The store *)

(** The objects that exist, by identity, and the two global dictionaries
    [users_db] and [items_db], which hold references to them. *)
Record state : Type := mkState {
  user_objs : gmap loc User.t;
  item_objs : gmap loc Item.t;
  next_obj : loc;
  users_db : list (string * loc);
  items_db : list (string * loc)
}.

#[global] Instance User_inhabited : Inhabited User.t :=
  populate (User.mk None None None None None).
#[global] Instance Item_inhabited : Inhabited Item.t :=
  populate (Item.mk None None None None None None).

(** The state of a process that has just started. *)
Definition init : state := mkState ∅ ∅ 0%nat [] [].

(** The object a reference stands for. *)
Definition user_at (st : state) (l : loc) : User.t := user_objs st !!! l.
Definition item_at (st : state) (l : loc) : Item.t := item_objs st !!! l.

(** ** User management endpoints *)

(** [create_user]: the object parsed from the body gets its [id] and
    [created_at] assigned and is stored under the new id. *)
Definition create_user (st : state) (user : User.t) (uuid : string)
    (now : datetime) : loc * state :=
  let l := next_obj st in
  let user := User.mk (Some uuid) (User.name user) (User.email user)
                (User.age user) (Some now) in
  (l, mkState (<[l := user]> (user_objs st)) (item_objs st) (S l)
        (dict_set (users_db st) uuid l) (items_db st)).

(** [skip: int = Query(0, ge=0)] *)
Definition skip_ok (skip : Z) : bool := 0 <=? skip.

(** [limit: int = Query(10, ge=1, le=100)] *)
Definition limit_ok (limit : Z) : bool := (1 <=? limit) && (limit <=? 100).

(** [get_all_users] *)
Definition get_all_users (st : state) (skip limit : Z) : list loc :=
  let users_list := dict_values (users_db st) in
  py_slice users_list skip (skip + limit).

(** [get_user] *)
Definition get_user (st : state) (user_id : string) : response loc :=
  match dict_get (users_db st) user_id with
  | None => NotFound
  | Some l => Ok l
  end.

(** One turn of the loop [for field, value in update_data.items():
    setattr(stored, field, value)]: a member that was not set is not in
    [update_data]. *)
Definition setattr {A : Type} (f : field A) (stored : option A) : option A :=
  match f with
  | Absent => stored
  | Given v => v
  end.

(** The whole loop of [update_user] on the stored object. *)
Definition User_setattrs (upd : UserUpdate.t) (stored : User.t) : User.t :=
  User.mk (User.id stored)
    (setattr (UserUpdate.name upd) (User.name stored))
    (setattr (UserUpdate.email upd) (User.email stored))
    (setattr (UserUpdate.age upd) (User.age stored))
    (User.created_at stored).

(** [update_user]: the stored object is changed where it is, and the same
    reference is put back under its key and returned. *)
Definition update_user (st : state) (user_id : string) (upd : UserUpdate.t)
  : response loc * state :=
  match dict_get (users_db st) user_id with
  | None => (NotFound, st)
  | Some l =>
      let stored_user := User_setattrs upd (user_at st l) in
      (Ok l, mkState (<[l := stored_user]> (user_objs st)) (item_objs st)
               (next_obj st) (dict_set (users_db st) user_id l)
               (items_db st))
  end.

(** [delete_user] *)
Definition delete_user (st : state) (user_id : string)
  : response unit * state :=
  match dict_get (users_db st) user_id with
  | None => (NotFound, st)
  | Some _ =>
      (Ok tt, mkState (user_objs st) (item_objs st) (next_obj st)
                (dict_del (users_db st) user_id) (items_db st))
  end.

(** The test [email.lower() in user.email.lower()], with [lower] for
    [str.lower]: [None.lower()] raises [AttributeError]. *)
Definition email_matches (lower : string -> string) (st : state)
    (email : string) (l : loc) : option bool :=
  match User.email (user_at st l) with
  | None => None
  | Some e => Some (str_in (lower email) (lower e))
  end.

(** [search_users_by_email], with [lower] for [str.lower]. *)
Definition search_users_by_email (lower : string -> string) (st : state)
    (email : string) : response (list loc) :=
  match comprehension (email_matches lower st email)
          (dict_values (users_db st)) with
  | None => ServerError
  | Some matching_users => Ok matching_users
  end.

(** ** Item management endpoints *)

(** [create_item] *)
Definition create_item (st : state) (item : Item.t) (uuid : string)
    (now : datetime) : loc * state :=
  let l := next_obj st in
  let item := Item.mk (Some uuid) (Item.title item) (Item.description item)
                (Item.price item) (Item.quantity item) (Some now) in
  (l, mkState (user_objs st) (<[l := item]> (item_objs st)) (S l)
        (users_db st) (dict_set (items_db st) uuid l)).

(** [min_price: Optional[float] = Query(None, ge=0)], and [max_price]. *)
Definition price_query_ok (bound : option float) : bool :=
  match bound with
  | None => true
  | Some p => bound_ok p
  end.

(** The test [item.price >= min_price]: comparing [None] with a float
    raises [TypeError]. *)
Definition price_ge (st : state) (min_price : float) (l : loc) : option bool :=
  match Item.price (item_at st l) with
  | None => None
  | Some p => Some (PrimFloat.leb min_price p)
  end.

(** The test [item.price <= max_price]. *)
Definition price_le (st : state) (max_price : float) (l : loc) : option bool :=
  match Item.price (item_at st l) with
  | None => None
  | Some p => Some (PrimFloat.leb p max_price)
  end.

(** The two [if ... is not None:] steps of [get_all_items]. *)
Definition apply_filter (test : float -> loc -> option bool)
    (bound : option float) (items_list : list loc) : option (list loc) :=
  match bound with
  | None => Some items_list
  | Some b => comprehension (test b) items_list
  end.

(** [get_all_items] *)
Definition get_all_items (st : state) (skip limit : Z)
    (min_price max_price : option float) : response (list loc) :=
  let items_list := dict_values (items_db st) in
  match apply_filter (price_ge st) min_price items_list with
  | None => ServerError
  | Some items_list =>
      match apply_filter (price_le st) max_price items_list with
      | None => ServerError
      | Some items_list => Ok (py_slice items_list skip (skip + limit))
      end
  end.

(** [get_item] *)
Definition get_item (st : state) (item_id : string) : response loc :=
  match dict_get (items_db st) item_id with
  | None => NotFound
  | Some l => Ok l
  end.

(** The whole loop of [update_item] on the stored object. *)
Definition Item_setattrs (upd : ItemUpdate.t) (stored : Item.t) : Item.t :=
  Item.mk (Item.id stored)
    (setattr (ItemUpdate.title upd) (Item.title stored))
    (setattr (ItemUpdate.description upd) (Item.description stored))
    (setattr (ItemUpdate.price upd) (Item.price stored))
    (setattr (ItemUpdate.quantity upd) (Item.quantity stored))
    (Item.created_at stored).

(** [update_item] *)
Definition update_item (st : state) (item_id : string) (upd : ItemUpdate.t)
  : response loc * state :=
  match dict_get (items_db st) item_id with
  | None => (NotFound, st)
  | Some l =>
      let stored_item := Item_setattrs upd (item_at st l) in
      (Ok l, mkState (user_objs st) (<[l := stored_item]> (item_objs st))
               (next_obj st) (users_db st)
               (dict_set (items_db st) item_id l))
  end.

(** [delete_item] *)
Definition delete_item (st : state) (item_id : string)
  : response unit * state :=
  match dict_get (items_db st) item_id with
  | None => (NotFound, st)
  | Some _ =>
      (Ok tt, mkState (user_objs st) (item_objs st) (next_obj st)
                (users_db st) (dict_del (items_db st) item_id))
  end.

(** [reset_database] *)
Definition reset_database (st : state) : state :=
  mkState (user_objs st) (item_objs st) (next_obj st) [] [].

(** ** The endpoints: FastAPI parses the request against the declared
    schema, answers 422 when that fails, and calls the handler otherwise. *)

Section endpoints.
Variable EmailStr : string -> option string.

(** [POST /users] *)
Definition POST_users (st : state) (body : UserBody.t) (uuid : string)
    (now : datetime) : response loc * state :=
  match User_validate EmailStr body with
  | None => (ValidationError, st)
  | Some user => let '(l, st') := create_user st user uuid now in (Ok l, st')
  end.

(** [GET /users] *)
Definition GET_users (st : state) (skip limit : Z) : response (list loc) :=
  if skip_ok skip && limit_ok limit then Ok (get_all_users st skip limit)
  else ValidationError.

(** [PUT /users/{user_id}] *)
Definition PUT_user (st : state) (user_id : string) (body : UserUpdate.t)
  : response loc * state :=
  match UserUpdate_validate EmailStr body with
  | None => (ValidationError, st)
  | Some user_update => update_user st user_id user_update
  end.

(** [POST /items] *)
Definition POST_items (st : state) (body : ItemBody.t) (uuid : string)
    (now : datetime) : response loc * state :=
  match Item_validate body with
  | None => (ValidationError, st)
  | Some item => let '(l, st') := create_item st item uuid now in (Ok l, st')
  end.

(** [GET /items] *)
Definition GET_items (st : state) (skip limit : Z)
    (min_price max_price : option float) : response (list loc) :=
  if skip_ok skip && limit_ok limit
     && price_query_ok min_price && price_query_ok max_price
  then get_all_items st skip limit min_price max_price
  else ValidationError.

(** [PUT /items/{item_id}] *)
Definition PUT_item (st : state) (item_id : string) (body : ItemUpdate.t)
  : response loc * state :=
  match ItemUpdate_validate body with
  | None => (ValidationError, st)
  | Some item_update => update_item st item_id item_update
  end.

(** *** A run of the process *)

(** The requests that reach the store. A create request carries what
    [uuid4()] and [datetime.now()] answer when the handler runs. *)
Inductive request : Type :=
  | PostUser (body : UserBody.t) (uuid : string) (now : datetime)
  | GetUsers (skip limit : Z)
  | GetUser (user_id : string)
  | PutUser (user_id : string) (body : UserUpdate.t)
  | DeleteUser (user_id : string)
  | SearchUsers (email : string)
  | PostItem (body : ItemBody.t) (uuid : string) (now : datetime)
  | GetItems (skip limit : Z) (min_price max_price : option float)
  | GetItem (item_id : string)
  | PutItem (item_id : string) (body : ItemUpdate.t)
  | DeleteItem (item_id : string)
  | Reset.

(** The store after a request. *)
Definition handle (st : state) (r : request) : state :=
  match r with
  | PostUser body uuid now => snd (POST_users st body uuid now)
  | PutUser user_id body => snd (PUT_user st user_id body)
  | DeleteUser user_id => snd (delete_user st user_id)
  | PostItem body uuid now => snd (POST_items st body uuid now)
  | PutItem item_id body => snd (PUT_item st item_id body)
  | DeleteItem item_id => snd (delete_item st item_id)
  | Reset => reset_database st
  | GetUsers _ _ | GetUser _ | SearchUsers _
  | GetItems _ _ _ _ | GetItem _ => st
  end.

(** The store after a sequence of requests. *)
Definition run (st : state) (rs : list request) : state :=
  fold_left handle rs st.

(** The identifier a request hands out for a user: the [id] of the object
    that [POST /users] returns. *)
Definition user_id_issued (st : state) (r : request) : list string :=
  match r with
  | PostUser body uuid now =>
      match POST_users st body uuid now with
      | (Ok l, st') =>
          match User.id (user_at st' l) with
          | Some i => [i]
          | None => []
          end
      | _ => []
      end
  | _ => []
  end.

(** The same for an item. *)
Definition item_id_issued (st : state) (r : request) : list string :=
  match r with
  | PostItem body uuid now =>
      match POST_items st body uuid now with
      | (Ok l, st') =>
          match Item.id (item_at st' l) with
          | Some i => [i]
          | None => []
          end
      | _ => []
      end
  | _ => []
  end.

(** All identifiers handed out during a run, in order. *)
Fixpoint user_ids_issued (st : state) (rs : list request) : list string :=
  match rs with
  | [] => []
  | r :: rs' => user_id_issued st r ++ user_ids_issued (handle st r) rs'
  end.

Fixpoint item_ids_issued (st : state) (rs : list request) : list string :=
  match rs with
  | [] => []
  | r :: rs' => item_id_issued st r ++ item_ids_issued (handle st r) rs'
  end.

(** The answers of [uuid4()] during a run: one for each create request
    whose body passes its schema, for users and for items. *)
Definition uuid4_call (r : request) : list string :=
  match r with
  | PostUser body uuid _ =>
      match User_validate EmailStr body with Some _ => [uuid] | None => [] end
  | PostItem body uuid _ =>
      match Item_validate body with Some _ => [uuid] | None => [] end
  | _ => []
  end.

Definition user_uuid4_calls (rs : list request) : list string :=
  flat_map (fun r => match r with PostUser _ _ _ => uuid4_call r | _ => [] end)
    rs.

Definition item_uuid4_calls (rs : list request) : list string :=
  flat_map (fun r => match r with PostItem _ _ _ => uuid4_call r | _ => [] end)
    rs.

(** *** The field constraints of a stored record *)

Definition User_ok (u : User.t) : Prop :=
  (exists n, User.name u = Some n /\ str_len_ok 1 100 n = true) /\
  (exists e raw, User.email u = Some e /\ EmailStr raw = Some e) /\
  (exists a, User.age u = Some a /\ age_ok a = true).
End endpoints.

Definition Item_ok (i : Item.t) : Prop :=
  (exists t, Item.title i = Some t /\ str_len_ok 1 200 t = true) /\
  (exists p, Item.price i = Some p /\ price_ok p = true) /\
  (exists q, Item.quantity i = Some q /\ quantity_ok q = true).

(** Every record a reader can reach satisfies its field constraints. *)
Definition store_ok (EmailStr : string -> option string) (st : state) : Prop :=
  (forall k l, dict_get (users_db st) k = Some l ->
               User_ok EmailStr (user_at st l)) /\
  (forall k l, dict_get (items_db st) k = Some l -> Item_ok (item_at st l)).

(** Every stored item has a price, as [price: float] declares. *)
Definition prices_set (st : state) : Prop :=
  forall l, In l (dict_values (items_db st)) ->
            is_Some (Item.price (item_at st l)).

(** Every stored user has an email, as [email: EmailStr] declares. *)
Definition emails_set (st : state) : Prop :=
  forall l, In l (dict_values (users_db st)) ->
            is_Some (User.email (user_at st l)).

(** ** The words of the specification *)

(** A price satisfies every bound that was supplied. *)
Definition within_bounds (min_price max_price : option float) (p : float)
  : bool :=
  match min_price with None => true | Some m => PrimFloat.leb m p end &&
  match max_price with None => true | Some m => PrimFloat.leb p m end.

(** The stored item behind [l] is retained by the price filters. *)
Definition retained (st : state) (min_price max_price : option float)
    (l : loc) : bool :=
  match Item.price (item_at st l) with
  | Some p => within_bounds min_price max_price p
  | None => false
  end.

(** The stored item behind [l] satisfies every bound that was supplied:
    it has a price, and the price is at least [min_price] and at most
    [max_price]; an absent bound asks for nothing. *)
Definition satisfies_bounds (st : state) (min_price max_price : option float)
    (l : loc) : Prop :=
  (forall m, min_price = Some m ->
     exists p, Item.price (item_at st l) = Some p /\ PrimFloat.leb m p = true) /\
  (forall m, max_price = Some m ->
     exists p, Item.price (item_at st l) = Some p /\ PrimFloat.leb p m = true).

(** [needle] occurs in [hay] as a substring once both are lower-cased. *)
Definition ci_substring (lower : string -> string) (needle hay : string)
  : Prop :=
  exists pre post, lower hay = pre ++ lower needle ++ post.

(** The stored user behind [l] has an email that contains [q] up to case. *)
Definition email_contains (lower : string -> string) (st : state)
    (q : string) (l : loc) : Prop :=
  exists e, User.email (user_at st l) = Some e /\ ci_substring lower q e.

(** ** Requests without null *)

(** The member is not given as [null]. *)
Definition not_null {A : Type} (f : field A) : bool :=
  match f with
  | Given None => false
  | _ => true
  end.

(** No update in the request gives [null] to a member that the stored
    record requires ([description] may be null in an [Item]). *)
Definition null_free (r : request) : bool :=
  match r with
  | PutUser _ body =>
      not_null (UserUpdate.name body) && not_null (UserUpdate.email body)
      && not_null (UserUpdate.age body)
  | PutItem _ body =>
      not_null (ItemUpdate.title body) && not_null (ItemUpdate.price body)
      && not_null (ItemUpdate.quantity body)
  | _ => true
  end.

(** Every reference in the dictionaries is to an object that was made. *)
Definition refs_made (st : state) : Prop :=
  (forall k l, dict_get (users_db st) k = Some l -> (l < next_obj st)%nat) /\
  (forall k l, dict_get (items_db st) k = Some l -> (l < next_obj st)%nat).

(** An item with a title and a price, as a parsed body gives it. *)
Definition priced_item (title : string) (p : float) : Item.t :=
  Item.mk None (Some title) None (Some p) (Some 1) None.

(** ** Identifiers of the [uuid] module *)

(** [uuid4()], from 16 random bytes read as a number: the 128-bit integer
    of the UUID, with the variant and the version bits set. *)
Definition uuid4 (random : N) : N :=
  let int := (random mod 2 ^ 128)%N in
  let int := N.ldiff int (N.shiftl 0xc000 48) in
  let int := N.lor int (N.shiftl 0x8000 48) in
  let int := N.ldiff int (N.shiftl 0xf000 64) in
  N.lor int (N.shiftl 4 76).

(** One digit of ['%x']. *)
Definition hex_digit (d : N) : ascii :=
  nth (N.to_nat d) (list_ascii_of_string "0123456789abcdef") "0"%char.

(** The last [digits] digits of ['%x' % n], padded with zeros. *)
Fixpoint hex (digits : nat) (n : N) : string :=
  match digits with
  | O => ""
  | S k => hex k (n / 16)%N ++ String (hex_digit (n mod 16)%N) ""
  end.

(** [str(u)] for a UUID with the integer [int]: the 32 digits of
    ['%032x' % int] in groups of 8, 4, 4, 4 and 12. *)
Definition UUID_str (int : N) : string :=
  hex 8 (int / 2 ^ 96)%N ++ "-" ++ hex 4 (int / 2 ^ 80)%N ++ "-"
  ++ hex 4 (int / 2 ^ 64)%N ++ "-" ++ hex 4 (int / 2 ^ 48)%N ++ "-"
  ++ hex 12 int.

(** ** Values for the examples *)

(** Eleven items, created in this order: the first priced 5, the ten
    others priced 15. *)
Definition eleven_items : state :=
  fold_left
    (fun st '(id, p) => snd (create_item st (priced_item id p) id 1))
    [("i-a", 5%float); ("i-b", 15%float); ("i-c", 15%float);
     ("i-d", 15%float); ("i-e", 15%float); ("i-f", 15%float);
     ("i-g", 15%float); ("i-h", 15%float); ("i-i", 15%float);
     ("i-j", 15%float); ("i-k", 15%float)] init.

(** Two creates for which [uuid4()] gives the same answer. *)
Definition repeated_answer_run : list request :=
  [PostUser
     (UserBody.mk Absent (Given (Some "Ramesh Kumar Sah"))
        (Given (Some "ramesh@example.com")) (Given (Some 25)) Absent)
     (UUID_str (uuid4 7)) 1000;
   PostUser
     (UserBody.mk Absent (Given (Some "Bob")) (Given (Some "bob@test.org"))
        (Given (Some 40)) Absent)
     (UUID_str (uuid4 7)) 1001].


(** A state with one stored user and one stored item, for the examples. *)
Definition sample_user : User.t :=
  User.mk None (Some "Ramesh Kumar Sah") (Some "ramesh@example.com") (Some 25)
    None.

(** The price is the binary64 value of [9.99]. *)
Definition sample_item : Item.t :=
  Item.mk None (Some "Widget") None (Some 0x1.3fae147ae147bp+3%float) (Some 5)
    None.

Definition sample_state : state :=
  snd (create_item (snd (create_user init sample_user "u-1" 1000))
         sample_item "i-1" 1001).

(** Three items priced 5, 15 and 25, created in this order. *)
Definition priced (title : string) (p : float) : Item.t :=
  Item.mk None (Some title) None (Some p) (Some 1) None.

Definition shop_state : state :=
  let st := snd (create_item init (priced "a" 5%float) "i-a" 1) in
  let st := snd (create_item st (priced "b" 15%float) "i-b" 2) in
  snd (create_item st (priced "c" 25%float) "i-c" 3).

(** Two users, created in this order. *)
Definition crowd_state : state :=
  let st := snd (create_user init sample_user "u-1" 1000) in
  snd (create_user st
         (User.mk None (Some "Bob") (Some "Bob@Test.ORG") (Some 40) None)
         "u-2" 1001).

(** A stand-in for [str.lower] in the examples: it lowers the ASCII letters
    and nothing else. *)
Definition sample_lower_ascii (c : ascii) : ascii :=
  let n := nat_of_ascii c in
  if (65 <=? n)%nat && (n <=? 90)%nat then ascii_of_nat (n + 32) else c.

Fixpoint sample_lower (s : string) : string :=
  match s with
  | EmptyString => EmptyString
  | String c s' => String (sample_lower_ascii c) (sample_lower s')
  end.

(** A stand-in for the email validator in the examples: it wants an [@]
    and keeps the address as it is. *)
Definition sample_EmailStr (s : string) : option string :=
  if str_in "@" s then Some s else None.

(** A body that supplies an [id] and a [created_at] of its own. *)
Definition sample_user_body : UserBody.t :=
  UserBody.mk (Given (Some "mine")) (Given (Some "Ramesh Kumar Sah"))
    (Given (Some "ramesh@example.com")) (Given (Some 25)) (Given (Some 7)).

Definition sample_item_body : ItemBody.t :=
  ItemBody.mk Absent (Given (Some "Widget")) Absent
    (Given (Some 0x1.3fae147ae147bp+3%float)) (Given (Some 5)) Absent.

(** The body [{"name": null}] of an update. *)
Definition null_name : UserUpdate.t := UserUpdate.mk (Given None) Absent Absent.

(** The body [{"price": null}] of an update. *)
Definition null_price : ItemUpdate.t :=
  ItemUpdate.mk Absent Absent (Given None) Absent.

(** One user and one item are created. *)
Definition setup_run : list request :=
  [PostUser sample_user_body "u-1" 1000; PostItem sample_item_body "i-1" 1001].

(** A member of the record after a merge: the payload's value when the
    payload has the member, the previous value otherwise. *)
Definition merged {A : Type} (payload : field A) (before after : option A)
  : Prop :=
  match payload with
  | Absent => after = before
  | Given v => after = v
  end.

(** The payload in which no member is set. *)
Definition UserUpdate_empty : UserUpdate.t := UserUpdate.mk Absent Absent Absent.
Definition ItemUpdate_empty : ItemUpdate.t :=
  ItemUpdate.mk Absent Absent Absent Absent.

(** The list that [get_all_items] has after its two filter steps, before
    the slice; [None] when a comparison raises. *)
Definition filter_items (st : state) (min_price max_price : option float)
  : option (list loc) :=
  match apply_filter (price_ge st) min_price (dict_values (items_db st)) with
  | None => None
  | Some items_list => apply_filter (price_le st) max_price items_list
  end.

(** A listing [list_ skip limit] pages through the sequence [all]: a
    request with [skip >= 0] and [1 <= limit <= 100] is answered with the
    [limit] records that follow the first [skip] ones, fewer when [all]
    ends before; two adjacent pages make up the page of their joint size;
    and a limit above 100 is refused. *)
Definition pages_through (list_ : Z -> Z -> response (list loc))
    (all : list loc) : Prop :=
  (forall skip limit, 0 <= skip -> 1 <= limit <= 100 ->
     exists r, list_ skip limit = Ok r /\
               r = take (Z.to_nat limit) (drop (Z.to_nat skip) all) /\
               Z.of_nat (length r) <= limit /\
               (Z.of_nat (length all) <= skip -> r = [])) /\
  (forall n m, 1 <= n -> 1 <= m -> n + m <= 100 ->
     exists r1 r2 r, list_ 0 n = Ok r1 /\ list_ n m = Ok r2 /\
                     list_ 0 (n + m) = Ok r /\ (r1 ++ r2)%list = r) /\
  (forall skip limit, 100 < limit -> list_ skip limit = ValidationError).

(** ** Health check and statistics *)

(** A Python number as [sum] and [round] hand it on: the [int] 0 of an
    empty sum stays an [int]. *)
Inductive number : Type :=
  | Int (z : Z)
  | Float (f : float).

(** The answer of [health_check]. *)
Module Health.
Record t : Type := mk {
  status : string;
  timestamp : string;
  users_count : Z;
  items_count : Z
}.
End Health.

(** The answer of [get_statistics]: [users.total], and the three members of
    [items], and the timestamp. *)
Module Stats.
Record t : Type := mk {
  users_total : Z;
  items_total : Z;
  total_inventory_value : number;
  average_price : number;
  timestamp : string
}.
End Stats.

(** [len(d)] *)
Definition len {A : Type} (d : list A) : Z := Z.of_nat (length d).

(** A generator expression [f(x) for x in l] that is consumed to its end;
    [None] when an element raises. *)
Fixpoint generate {A B : Type} (f : A -> option B) (l : list A)
  : option (list B) :=
  match l with
  | [] => Some []
  | x :: l' =>
      match f x with
      | None => None
      | Some y =>
          match generate f l' with
          | None => None
          | Some ys => Some (y :: ys)
          end
      end
  end.

Section builtins.
(** [datetime.isoformat] *)
Variable isoformat : datetime -> string.
(** [float(n)] for an [int], as [float * int] and [float / int] apply it;
    [None] is the [OverflowError] of an int that is too large. *)
Variable float_of_int : Z -> option float.
(** [a / b] for two [int]s. *)
Variable int_truediv : Z -> Z -> float.
(** [sum] over a sequence of floats that is not empty. *)
Variable fsum : list float -> float.
(** [round(x, 2)] for a float. *)
Variable round2 : float -> float.

(** [health_check] *)
Definition health_check (st : state) (now : datetime) : Health.t :=
  Health.mk "healthy" (isoformat now) (len (users_db st)) (len (items_db st)).

(** [sum(xs)]: the start value is the [int] 0. *)
Definition py_sum (xs : list float) : number :=
  match xs with
  | [] => Int 0
  | _ :: _ => Float (fsum xs)
  end.

(** [round(x, 2)]: an [int] is returned as it is. *)
Definition py_round2 (x : number) : number :=
  match x with
  | Int z => Int z
  | Float f => Float (round2 f)
  end.

(** [x / n] for an [int] [n]. *)
Definition truediv (x : number) (n : Z) : option number :=
  match x with
  | Int z => Some (Float (int_truediv z n))
  | Float f =>
      match float_of_int n with
      | Some fn => Some (Float (PrimFloat.div f fn))
      | None => None
      end
  end.

(** [item.price * item.quantity]: [None] as a factor raises [TypeError]. *)
Definition price_times_quantity (st : state) (l : loc) : option float :=
  match Item.price (item_at st l), Item.quantity (item_at st l) with
  | Some p, Some q =>
      match float_of_int q with
      | Some fq => Some (PrimFloat.mul p fq)
      | None => None
      end
  | _, _ => None
  end.

(** [get_statistics] *)
Definition get_statistics (st : state) (now : datetime) : response Stats.t :=
  let total_users := len (users_db st) in
  let total_items := len (items_db st) in
  match generate (price_times_quantity st) (dict_values (items_db st)) with
  | None => ServerError
  | Some values =>
      let total_inventory_value := py_sum values in
      let avg_item_price :=
        if 0 <? total_items then
          match generate (fun l => Item.price (item_at st l))
                  (dict_values (items_db st)) with
          | None => None
          | Some prices => truediv (py_sum prices) total_items
          end
        else Some (Int 0) in
      match avg_item_price with
      | None => ServerError
      | Some avg_item_price =>
          Ok (Stats.mk total_users total_items
                (py_round2 total_inventory_value) (py_round2 avg_item_price)
                (isoformat now))
      end
  end.
End builtins.

(** *** The builtins on binary64 numbers

    Models of the functions of Python that [get_statistics] applies to
    floats, for the cases in which the values are to be computed. *)

(** [float(n)]: the nearest float, ties to even; an [int] beyond the range
    raises [OverflowError]. *)
Definition py_float_of_int (n : Z) : option float :=
  let f := SF2Prim (binary_normalize prec emax n 0 false) in
  if PrimFloat.is_infinity f then None else Some f.

(** [a / b] for two [int]s, [b] not 0: the nearest float to the quotient. *)
Definition py_int_truediv (a b : Z) : float :=
  let sign := xorb (a <? 0) (b <? 0) in
  match Z.abs a, Z.abs b with
  | Zpos p, Zpos q =>
      SF2Prim (SFdiv prec emax (S754_finite sign p 0) (S754_finite false q 0))
  | _, _ => SF2Prim (S754_zero sign)
  end.

(** [sum] over floats as CPython computed it up to version 3.11: the
    additions from left to right, from the start value 0. *)
Definition fsum_left (xs : list float) : float :=
  fold_left PrimFloat.add xs 0%float.

(** [sum] over floats as CPython computes it from version 3.12 on: the
    additions from left to right with a compensation term that is added at
    the end. *)
Definition fsum_compensated (xs : list float) : float :=
  let '(total, c) :=
    fold_left
      (fun '(total, c) x =>
         let t := PrimFloat.add total x in
         let lost :=
           if PrimFloat.leb (PrimFloat.abs x) (PrimFloat.abs total)
           then PrimFloat.add (PrimFloat.sub total t) x
           else PrimFloat.add (PrimFloat.sub x t) total in
         (t, PrimFloat.add c lost))
      xs (0%float, 0%float) in
  if negb (PrimFloat.eqb c 0%float) && PrimFloat.is_finite c
  then PrimFloat.add total c else total.

(** The integer nearest to [num / den], ties to even, for [den > 0]. *)
Definition round_half_even_div (num den : Z) : Z :=
  let q := num / den in
  let r := num mod den in
  match 2 * r ?= den with
  | Lt => q
  | Gt => q + 1
  | Eq => if Z.even q then q else q + 1
  end.

(** [round(x, 2)] for a float: the value of [x], which is a binary
    fraction, is rounded to two decimal places, ties to even, and the
    float nearest to that decimal number is returned. *)
Definition py_round2_float (x : float) : float :=
  match Prim2SF x with
  | S754_finite s m e =>
      let hundredths :=
        if 0 <=? e then Z.pos m * 100 * 2 ^ e
        else round_half_even_div (Z.pos m * 100) (2 ^ (- e)) in
      match hundredths with
      | Zpos p =>
          SF2Prim
            (SFdiv prec emax (S754_finite s p 0) (S754_finite false 100 0))
      | _ => SF2Prim (S754_zero s)
      end
  | _ => x
  end.

(** The items of the example: priced 10 with quantity 2, and priced 20
    with quantity 1. *)
Definition example_items : state :=
  let st := snd (create_item init
                   (Item.mk None (Some "a") None (Some 10%float) (Some 2) None)
                   "i-a" 1) in
  snd (create_item st
         (Item.mk None (Some "b") None (Some 20%float) (Some 1) None)
         "i-b" 2).

(** One item as the statistics see it: its price, its quantity, and the
    quantity as a float. *)
Definition row_price (row : float * Z * float) : float := row.1.1.
Definition row_value (row : float * Z * float) : float :=
  PrimFloat.mul row.1.1 row.2.

(** ** Paging and payloads *)

(** The pages [0 .. n - 1] of size [limit] of the user listing, one after
    the other. *)
Definition user_pages (st : state) (limit : Z) (n : nat) : list loc :=
  flat_map (fun i => get_all_users st (Z.of_nat i * limit) limit) (seq 0 n).

(** The same for the items, with fixed bounds; [None] when a page raises. *)
Fixpoint item_pages (st : state) (limit : Z) (min_price max_price : option float)
    (first n : nat) : option (list loc) :=
  match n with
  | O => Some []
  | S n' =>
      match get_all_items st (Z.of_nat first * limit) limit min_price
              max_price,
            item_pages st limit min_price max_price (S first) n' with
      | Ok page, Some rest => Some (page ++ rest)%list
      | _, _ => None
      end
  end.

(** The member of the payload that does in one update what two updates do
    one after the other: the later one wins where it is set. *)
Definition overlay {A : Type} (first second : field A) : field A :=
  match second with
  | Absent => first
  | Given v => Given v
  end.

Definition UserUpdate_then (first second : UserUpdate.t) : UserUpdate.t :=
  UserUpdate.mk
    (overlay (UserUpdate.name first) (UserUpdate.name second))
    (overlay (UserUpdate.email first) (UserUpdate.email second))
    (overlay (UserUpdate.age first) (UserUpdate.age second)).

Definition ItemUpdate_then (first second : ItemUpdate.t) : ItemUpdate.t :=
  ItemUpdate.mk
    (overlay (ItemUpdate.title first) (ItemUpdate.title second))
    (overlay (ItemUpdate.description first) (ItemUpdate.description second))
    (overlay (ItemUpdate.price first) (ItemUpdate.price second))
    (overlay (ItemUpdate.quantity first) (ItemUpdate.quantity second)).

(** Every stored record carries the identifier it is stored under and a
    creation timestamp, and is an object that was made. *)
Definition keyed (st : state) : Prop :=
  (forall k l, dict_get (users_db st) k = Some l ->
     (l < next_obj st)%nat /\ User.id (user_at st l) = Some k /\
     is_Some (User.created_at (user_at st l))) /\
  (forall k l, dict_get (items_db st) k = Some l ->
     (l < next_obj st)%nat /\ Item.id (item_at st l) = Some k /\
     is_Some (Item.created_at (item_at st l))).

(** Two users are created under different identifiers. *)
Definition two_users_run : list request :=
  [PostUser sample_user_body "u-1" 1000;
   PostUser
     (UserBody.mk Absent (Given (Some "Bob")) (Given (Some "bob@test.org"))
        (Given (Some 40)) Absent) "u-2" 1001].

(** A stand-in for [datetime.isoformat] in the examples. *)
Definition sample_isoformat (d : datetime) : string :=
  if d =? 0 then "1970-01-01T00:00:00" else "2025-12-30T00:00:00".

(** * The push script [auto_push.py]

    The script talks to its surroundings: it reads [sys.argv] and the
    terminal, prints, and starts [git]. A run is embedded as the list of
    these events, in order, and the way the script ends; what the
    surroundings answer is an input. What [git] itself prints is not part
    of the events. *)

Module AutoPush.

(** What [subprocess.run] comes back with: the process ran and ended with
    a return code and, when it was captured, an output; or it could not be
    started and [OSError] is raised. *)
Inductive completed : Type :=
  | Completed (returncode : Z) (stdout : string)
  | NotStarted.

(** What [input] comes back with. *)
Inductive typed : Type :=
  | Line (s : string)
  | KeyboardInterrupt
  | EOFError.

(** The surroundings of one run. *)
Record world : Type := mkWorld {
  argv : list string;
  stdin : typed;
  git : list string -> completed
}.

Inductive event : Type :=
  | Print (s : string)
  | Input (prompt : string)
  | Run (command_list : list string).

(** How the script ends: [sys.exit(code)], the end of [main] being
    [Exit 0], or an exception that nothing catches. *)
Inductive ending : Type :=
  | Exit (code : Z)
  | Uncaught (exception : string).

(** A piece of the script: the events so far, and a value to go on with or
    the ending that stopped it. *)
Definition prog (A : Type) : Type := list event * (ending + A).

Definition ret {A : Type} (a : A) : prog A := ([], inr a).

Definition bind {A B : Type} (m : prog A) (k : A -> prog B) : prog B :=
  match m with
  | (t, inl e) => (t, inl e)
  | (t, inr a) => let '(t', r) := k a in ((t ++ t')%list, r)
  end.

Local Notation "x <- m ;; k" := (bind m (fun x => k))
  (at level 62, m at next level, right associativity).
Local Notation "m ;;; k" := (bind m (fun _ => k))
  (at level 62, right associativity).

Definition print (s : string) : prog unit := ([Print s], inr tt).
Definition sys_exit {A : Type} (code : Z) : prog A := ([], inl (Exit code)).
Definition raise {A : Type} (exception : string) : prog A :=
  ([], inl (Uncaught exception)).

(** The newline character. *)
Definition nl : string := String (ascii_of_nat 10) "".

(** [sep.join(l)] *)
Fixpoint join (sep : string) (l : list string) : string :=
  match l with
  | [] => ""
  | [x] => x
  | x :: l' => x ++ sep ++ join sep l'
  end.

Section script.
(** [s.strip()], which takes away the Unicode whitespace at both ends. *)
Variable strip : string -> string.
(** [str(e)] for the [CalledProcessError] of a command and a return code. *)
Variable str_CalledProcessError : list string -> Z -> string.

(** [subprocess.run(command_list, ...)] without [check]. *)
Definition subprocess_run (w : world) (command_list : list string)
  : prog completed :=
  ([Run command_list],
   match git w command_list with
   | NotStarted => inl (Uncaught "OSError")
   | c => inr c
   end).

(** [run_git_command] *)
Definition run_git_command (w : world) (command_list : list string)
  : prog completed :=
  result <- subprocess_run w command_list ;;
  match result with
  | Completed returncode _ =>
      if returncode =? 0 then ret result
      else
        print ("Error executing: " ++ join " " command_list) ;;;
        print (str_CalledProcessError command_list returncode) ;;;
        sys_exit 1
  | NotStarted => raise "OSError"
  end.

(** The commit message of [main]: from the arguments, or typed. *)
Definition read_commit_message (w : world) : prog string :=
  if 1 <? len (argv w) then ret (join " " (tail (argv w)))
  else
    match stdin w with
    | Line s => ([Input "Enter commit message: "], inr (strip s))
    | KeyboardInterrupt =>
        ([Input "Enter commit message: "], inr tt) ;;;
        print (nl ++ "Operation cancelled.") ;;;
        sys_exit 0
    | EOFError => ([Input "Enter commit message: "], inl (Uncaught "EOFError"))
    end.

(** The body of [main]. *)
Definition main_body (w : world) : prog unit :=
  commit_message <- read_commit_message w ;;
  (if String.eqb commit_message "" then
     print "Error: Commit message cannot be empty." ;;; sys_exit 1
   else ret tt) ;;;
  print (nl ++ "🚀 Starting automated push with message: '"
         ++ commit_message ++ "'") ;;;
  print (nl ++ "[1/3] Staging changes (git add .)...") ;;;
  run_git_command w ["git"; "add"; "."] ;;;
  print (nl ++ "[2/3] Committing changes...") ;;;
  commit_result <- subprocess_run w ["git"; "commit"; "-m"; commit_message] ;;
  (match commit_result with
   | Completed returncode _ =>
       if negb (returncode =? 0) then
         status_result <- subprocess_run w ["git"; "status"; "--porcelain"] ;;
         match status_result with
         | Completed _ stdout =>
             if String.eqb (strip stdout) "" && (returncode =? 1) then
               print "Nothing to commit. Checking if we need to push existing commits..."
             else
               print "Commit might have failed or there was nothing to commit."
         | NotStarted => raise "OSError"
         end
       else ret tt
   | NotStarted => raise "OSError"
   end) ;;;
  print (nl ++ "[3/3] Pushing to remote (git push)...") ;;;
  run_git_command w ["git"; "push"] ;;;
  print (nl ++ "✅ Done! Changes pushed successfully.").

(** [main], run as the script: the events and the ending. *)
Definition main (w : world) : list event * ending :=
  match main_body w with
  | (t, inl e) => (t, e)
  | (t, inr _) => (t, Exit 0)
  end.
End script.

(** The commands that a run started, in order. *)
Definition commands (t : list event) : list (list string) :=
  flat_map (fun e => match e with Run c => [c] | _ => [] end) t.

(** The three commands of the script, and the one it asks the state with. *)
Definition git_add : list string := ["git"; "add"; "."].
Definition git_commit (m : string) : list string := ["git"; "commit"; "-m"; m].
Definition git_status : list string := ["git"; "status"; "--porcelain"].
Definition git_push : list string := ["git"; "push"].

(** The commit message the script works with, when it gets one. *)
Definition message (strip : string -> string) (w : world) : option string :=
  if 1 <? len (argv w) then Some (join " " (tail (argv w)))
  else match stdin w with Line s => Some (strip s) | _ => None end.

(** What the script ends with once [git push] was started. *)
Definition after_push (w : world) : ending :=
  match git w git_push with
  | NotStarted => Uncaught "OSError"
  | Completed p _ => if p =? 0 then Exit 0 else Exit 1
  end.

(** Stand-ins for the examples: a [git] that answers every command with the
    given return code for the commit and 0 for the rest. *)
Definition sample_git (commit_code : Z) (command_list : list string)
  : completed :=
  match command_list with
  | [_; "commit"; _; _] => Completed commit_code ""
  | _ => Completed 0 ""
  end.

Definition sample_str_error (command_list : list string) (code : Z) : string :=
  "Command failed.".

(** A stand-in for [str.strip] in the examples: it takes away the ASCII
    blanks, tabs and line ends at both ends. *)
Definition sample_is_space (c : ascii) : bool :=
  let n := nat_of_ascii c in
  ((9 <=? n)%nat && (n <=? 13)%nat) || (n =? 32)%nat.

Fixpoint sample_lstrip (s : string) : string :=
  match s with
  | EmptyString => EmptyString
  | String c s' => if sample_is_space c then sample_lstrip s' else s
  end.

Fixpoint sample_rstrip (s : string) : string :=
  match s with
  | EmptyString => EmptyString
  | String c s' =>
      match sample_rstrip s' with
      | EmptyString =>
          if sample_is_space c then EmptyString else String c EmptyString
      | r => String c r
      end
  end.

Definition sample_strip (s : string) : string :=
  sample_rstrip (sample_lstrip s).

End AutoPush.

(** * Properties *)

(** ** Dictionaries *)

Section dict_facts.
Context {V : Type}.
Implicit Types (d : list (string * V)) (k : string) (v : V).

Lemma dict_get_set_eq d k v : dict_get (dict_set d k v) k = Some v.
Proof.
  induction d as [|[k' v'] d IH]; simpl.
  - by rewrite String.eqb_refl.
  - destruct (String.eqb k k') eqn:E; simpl.
    + by rewrite String.eqb_refl.
    + by rewrite E.
Qed.

Lemma dict_get_set_ne d k k' v :
  k <> k' -> dict_get (dict_set d k v) k' = dict_get d k'.
Proof.
  intros Hne. induction d as [|[k0 v0] d IH]; simpl.
  - destruct (String.eqb k' k) eqn:E; [|done].
    apply String.eqb_eq in E. congruence.
  - destruct (String.eqb k k0) eqn:E; simpl.
    + apply String.eqb_eq in E. subst k0.
      destruct (String.eqb k' k) eqn:E'; [|done].
      apply String.eqb_eq in E'. congruence.
    + by rewrite IH.
Qed.

(** Storing again what is stored changes nothing. *)
Lemma dict_set_same d k v : dict_get d k = Some v -> dict_set d k v = d.
Proof.
  induction d as [|[k' v'] d IH]; simpl; [done|].
  destruct (String.eqb k k') eqn:E.
  - apply String.eqb_eq in E. intros [= ->]. by subst.
  - intros H. by rewrite IH.
Qed.

Lemma dict_set_new d k v :
  dict_get d k = None -> dict_set d k v = (d ++ [(k, v)])%list.
Proof.
  induction d as [|[k' v'] d IH]; simpl; [done|].
  destruct (String.eqb k k') eqn:E; [done|].
  intros H. by rewrite IH.
Qed.

Lemma dict_get_del_eq d k : dict_get (dict_del d k) k = None.
Proof.
  induction d as [|[k' v'] d IH]; simpl; [done|].
  destruct (String.eqb k k') eqn:E; simpl; [done|].
  by rewrite E.
Qed.

Lemma dict_get_del_ne d k k' :
  k <> k' -> dict_get (dict_del d k) k' = dict_get d k'.
Proof.
  intros Hne. induction d as [|[k0 v0] d IH]; simpl; [done|].
  destruct (String.eqb k k0) eqn:E; simpl.
  - apply String.eqb_eq in E. subst k0.
    destruct (String.eqb k' k) eqn:E'; [|done].
    apply String.eqb_eq in E'. congruence.
  - by rewrite IH.
Qed.

Lemma dict_get_values d k v : dict_get d k = Some v -> In v (dict_values d).
Proof.
  induction d as [|[k' v'] d IH]; simpl; [done|].
  destruct (String.eqb k k'); [intros [= ->]; by left | auto].
Qed.

End dict_facts.

(** ** Absent identifiers *)

(** C8: on an identifier that is not in its collection, [get], [update] and
    [delete] answer NotFound and leave the whole store as it was, for users
    and for items; and once a stored identifier has been deleted, [get] on
    it answers NotFound. *)
Theorem absent_id_not_found (st : state) (id : string) :
  (dict_get (users_db st) id = None ->
     get_user st id = NotFound /\
     (forall upd, update_user st id upd = (NotFound, st)) /\
     delete_user st id = (NotFound, st)) /\
  (dict_get (items_db st) id = None ->
     get_item st id = NotFound /\
     (forall upd, update_item st id upd = (NotFound, st)) /\
     delete_item st id = (NotFound, st)) /\
  (forall l, dict_get (users_db st) id = Some l ->
     exists st', delete_user st id = (Ok tt, st') /\
                 get_user st' id = NotFound) /\
  (forall l, dict_get (items_db st) id = Some l ->
     exists st', delete_item st id = (Ok tt, st') /\
                 get_item st' id = NotFound).
Proof.
  split; [|split; [|split]].
  - intros H. unfold get_user, update_user, delete_user. by rewrite H.
  - intros H. unfold get_item, update_item, delete_item. by rewrite H.
  - intros l Hl. unfold delete_user. rewrite Hl. eexists. split; [done|].
    unfold get_user. simpl. by rewrite dict_get_del_eq.
  - intros l Hl. unfold delete_item. rewrite Hl. eexists. split; [done|].
    unfold get_item. simpl. by rewrite dict_get_del_eq.
Qed.

Lemma absent_id_not_found_witness :
  (get_user sample_state "u-2" = NotFound /\
   delete_item sample_state "u-1" = (NotFound, sample_state)) /\
  exists st', delete_user sample_state "u-1" = (Ok tt, st') /\
              get_user st' "u-1" = NotFound.
Proof.
  split.
  - destruct (absent_id_not_found sample_state "u-2") as (Hu & _).
    destruct (absent_id_not_found sample_state "u-1") as (_ & Hi & _).
    split.
    + apply Hu. reflexivity.
    + apply Hi. reflexivity.
  - destruct (absent_id_not_found sample_state "u-1") as (_ & _ & Hd & _).
    apply (Hd 0%nat). reflexivity.
Defined.

(** ** Updates *)

(** What a successful update did to the store. *)
Lemma update_user_Ok st id upd l st' :
  update_user st id upd = (Ok l, st') ->
  dict_get (users_db st) id = Some l /\
  st' = mkState (<[l := User_setattrs upd (user_at st l)]> (user_objs st))
          (item_objs st) (next_obj st) (users_db st) (items_db st).
Proof.
  unfold update_user. destruct (dict_get (users_db st) id) as [l0|] eqn:E;
    [|done].
  intros [= -> <-]. split; [done|]. by rewrite (dict_set_same _ _ _ E).
Qed.

Lemma update_item_Ok st id upd l st' :
  update_item st id upd = (Ok l, st') ->
  dict_get (items_db st) id = Some l /\
  st' = mkState (user_objs st)
          (<[l := Item_setattrs upd (item_at st l)]> (item_objs st))
          (next_obj st) (users_db st) (items_db st).
Proof.
  unfold update_item. destruct (dict_get (items_db st) id) as [l0|] eqn:E;
    [|done].
  intros [= -> <-]. split; [done|]. by rewrite (dict_set_same _ _ _ E).
Qed.

(** The object behind the reference is the one the loop produced; every
    other object is as before. *)
Lemma update_user_at st id upd l st' :
  update_user st id upd = (Ok l, st') ->
  user_at st' l = User_setattrs upd (user_at st l) /\
  (forall l', l' <> l -> user_at st' l' = user_at st l').
Proof.
  intros H. apply update_user_Ok in H as [_ ->]. unfold user_at. simpl. split.
  - by rewrite lookup_total_insert_eq.
  - intros l' Hne. by rewrite lookup_total_insert_ne.
Qed.

Lemma update_item_at st id upd l st' :
  update_item st id upd = (Ok l, st') ->
  item_at st' l = Item_setattrs upd (item_at st l) /\
  (forall l', l' <> l -> item_at st' l' = item_at st l').
Proof.
  intros H. apply update_item_Ok in H as [_ ->]. unfold item_at. simpl. split.
  - by rewrite lookup_total_insert_eq.
  - intros l' Hne. by rewrite lookup_total_insert_ne.
Qed.

Lemma setattr_merged {A : Type} (f : field A) (v : option A) :
  merged f v (setattr f v).
Proof. by destruct f. Qed.

(** C3: a successful update gives every member that the payload has the
    payload's value and keeps every other member; the identifier and the
    creation timestamp are kept; with the empty payload the record is
    returned unchanged. No other record of the store changes, and the
    identifiers of the collection keep their records. This holds for items
    and for users. *)
Theorem update_changes_given_fields :
  (forall st id upd l st',
     update_item st id upd = (Ok l, st') ->
     let before := item_at st l in
     let after := item_at st' l in
     get_item st id = Ok l /\ get_item st' id = Ok l /\
     Item.id after = Item.id before /\
     Item.created_at after = Item.created_at before /\
     merged (ItemUpdate.title upd) (Item.title before) (Item.title after) /\
     merged (ItemUpdate.description upd) (Item.description before)
       (Item.description after) /\
     merged (ItemUpdate.price upd) (Item.price before) (Item.price after) /\
     merged (ItemUpdate.quantity upd) (Item.quantity before)
       (Item.quantity after) /\
     (upd = ItemUpdate_empty -> after = before) /\
     (forall l', l' <> l -> item_at st' l' = item_at st l') /\
     items_db st' = items_db st /\
     users_db st' = users_db st /\ user_objs st' = user_objs st) /\
  (forall st id upd l st',
     update_user st id upd = (Ok l, st') ->
     let before := user_at st l in
     let after := user_at st' l in
     get_user st id = Ok l /\ get_user st' id = Ok l /\
     User.id after = User.id before /\
     User.created_at after = User.created_at before /\
     merged (UserUpdate.name upd) (User.name before) (User.name after) /\
     merged (UserUpdate.email upd) (User.email before) (User.email after) /\
     merged (UserUpdate.age upd) (User.age before) (User.age after) /\
     (upd = UserUpdate_empty -> after = before) /\
     (forall l', l' <> l -> user_at st' l' = user_at st l') /\
     users_db st' = users_db st /\
     items_db st' = items_db st /\ item_objs st' = item_objs st).
Proof.
  split.
  - intros st id upd l st' H before after.
    destruct (update_item_at _ _ _ _ _ H) as [Hat Hother].
    destruct (update_item_Ok _ _ _ _ _ H) as [Hget Hst].
    assert (Hafter : after = Item_setattrs upd before) by exact Hat.
    unfold get_item. rewrite Hafter. subst st'. simpl. rewrite Hget.
    repeat split; try apply setattr_merged.
    + intros ->. by destruct before.
    + intros l' Hne. by apply Hother.
  - intros st id upd l st' H before after.
    destruct (update_user_at _ _ _ _ _ H) as [Hat Hother].
    destruct (update_user_Ok _ _ _ _ _ H) as [Hget Hst].
    assert (Hafter : after = User_setattrs upd before) by exact Hat.
    unfold get_user. rewrite Hafter. subst st'. simpl. rewrite Hget.
    repeat split; try apply setattr_merged.
    + intros ->. by destruct before.
    + intros l' Hne. by apply Hother.
Qed.

Lemma update_changes_given_fields_witness :
  let upd := ItemUpdate.mk Absent Absent Absent (Given (Some 10)) in
  let st' := snd (update_item sample_state "i-1" upd) in
  update_item sample_state "i-1" upd = (Ok 1%nat, st') /\
  Item.quantity (item_at st' 1%nat) = Some 10 /\
  Item.price (item_at st' 1%nat) = Item.price (item_at sample_state 1%nat) /\
  Item.title (item_at st' 1%nat) = Item.title (item_at sample_state 1%nat).
Proof.
  intros upd st'.
  assert (H : update_item sample_state "i-1" upd = (Ok 1%nat, st'))
    by reflexivity.
  split; [exact H|].
  destruct (proj1 update_changes_given_fields _ _ _ _ _ H)
    as (_ & _ & _ & _ & Ht & _ & Hp & Hq & _).
  split; [exact Hq|]. split; [exact Hp | exact Ht].
Defined.

(** ** Aliasing *)

(** The reference that [get_item] hands out before an update is the
    reference of the stored object, and the update rewrites that object:
    read through the old reference, the quantity has gone from 5 to 10. *)
Lemma update_item_not_pure_counterexample :
  exists l st',
    get_item sample_state "i-1" = Ok l /\
    update_item sample_state "i-1"
      (ItemUpdate.mk Absent Absent Absent (Given (Some 10))) = (Ok l, st') /\
    Item.quantity (item_at sample_state l) = Some 5 /\
    Item.quantity (item_at st' l) = Some 10 /\
    item_at st' l <> item_at sample_state l.
Proof.
  exists 1%nat. eexists. repeat split; try reflexivity.
  intros H. apply (f_equal Item.quantity) in H. vm_compute in H. discriminate.
Qed.

(** C10, as the code has it: an update makes no new object. It rewrites the
    stored object where it is and returns the reference that was stored, so
    that reading through a reference obtained before the update gives the
    record after the loop of [setattr]; the payload decides the new record
    together with the old one, every other object is unaffected and the
    identifier still leads to the same reference. *)
Theorem update_in_place :
  (forall st id upd l st',
     update_item st id upd = (Ok l, st') ->
     get_item st id = Ok l /\ get_item st' id = Ok l /\
     next_obj st' = next_obj st /\
     item_at st' l = Item_setattrs upd (item_at st l) /\
     (forall l', l' <> l -> item_at st' l' = item_at st l')) /\
  (forall st id upd l st',
     update_user st id upd = (Ok l, st') ->
     get_user st id = Ok l /\ get_user st' id = Ok l /\
     next_obj st' = next_obj st /\
     user_at st' l = User_setattrs upd (user_at st l) /\
     (forall l', l' <> l -> user_at st' l' = user_at st l')).
Proof.
  split; intros st id upd l st' H.
  - destruct (update_item_at _ _ _ _ _ H) as [Hat Hother].
    destruct (update_item_Ok _ _ _ _ _ H) as [Hget Hst].
    unfold get_item. rewrite Hget. split; [done|].
    split; [subst st'; simpl; by rewrite Hget|].
    split; [by subst st'|]. by split.
  - destruct (update_user_at _ _ _ _ _ H) as [Hat Hother].
    destruct (update_user_Ok _ _ _ _ _ H) as [Hget Hst].
    unfold get_user. rewrite Hget. split; [done|].
    split; [subst st'; simpl; by rewrite Hget|].
    split; [by subst st'|]. by split.
Qed.

Lemma update_in_place_witness :
  let upd := ItemUpdate.mk Absent Absent Absent (Given (Some 10)) in
  let st' := snd (update_item sample_state "i-1" upd) in
  get_item sample_state "i-1" = Ok 1%nat /\
  get_item st' "i-1" = Ok 1%nat /\
  item_at st' 1%nat = Item_setattrs upd (item_at sample_state 1%nat).
Proof.
  intros upd st'.
  assert (H : update_item sample_state "i-1" upd = (Ok 1%nat, st'))
    by reflexivity.
  destruct (proj1 update_in_place _ _ _ _ _ H) as (H1 & H2 & _ & H3 & _).
  split; [exact H1|]. split; [exact H2 | exact H3].
Defined.

(** ** Slices and pages *)

(** With bounds that are not negative, the slice [l[skip:skip + limit]]
    drops [skip] elements and takes [limit] of the rest. *)
Lemma py_slice_window {A : Type} (l : list A) (skip limit : Z) :
  0 <= skip -> 0 <= limit ->
  py_slice l skip (skip + limit)
  = take (Z.to_nat limit) (drop (Z.to_nat skip) l).
Proof.
  intros Hs Hl. unfold py_slice, slice_index.
  destruct (Z.ltb_spec skip 0) as [?|_]; [lia|].
  destruct (Z.ltb_spec (skip + limit) 0) as [?|_]; [lia|].
  destruct (Z.le_gt_cases (Z.of_nat (length l)) skip) as [Hge|Hlt].
  - rewrite (drop_ge l (Z.to_nat skip)) by lia.
    rewrite (skipn_all2 l) by lia. by rewrite !take_nil.
  - replace (Z.to_nat (Z.min skip (Z.of_nat (length l)))) with (Z.to_nat skip)
      by lia.
    destruct (Z.le_gt_cases (skip + limit) (Z.of_nat (length l))) as [Hin|Hout].
    + f_equal. lia.
    + rewrite (take_ge (drop (Z.to_nat skip) l) (Z.to_nat limit))
        by (rewrite length_drop; lia).
      apply take_ge. rewrite length_drop. lia.
Qed.

(** Paging through a list with the slice of Python. *)
Lemma py_slice_pages (all : list loc) :
  (forall skip limit, 0 <= skip -> 1 <= limit <= 100 ->
     py_slice all skip (skip + limit)
     = take (Z.to_nat limit) (drop (Z.to_nat skip) all) /\
     Z.of_nat (length (py_slice all skip (skip + limit))) <= limit /\
     (Z.of_nat (length all) <= skip -> py_slice all skip (skip + limit) = [])) /\
  (forall n m, 1 <= n -> 1 <= m ->
     (py_slice all 0 (0 + n) ++ py_slice all n (n + m))%list
     = py_slice all 0 (0 + (n + m))).
Proof.
  split.
  - intros skip limit Hs Hl. rewrite py_slice_window by lia.
    split; [done|]. split.
    + rewrite length_take. lia.
    + intros Hge. rewrite drop_ge by lia. by rewrite take_nil.
  - intros n m Hn Hm. rewrite !py_slice_window by lia.
    change (Z.to_nat 0) with 0%nat. rewrite !drop_0.
    rewrite Z2Nat.inj_add by lia. apply take_take_drop.
Qed.

(** ** Price filters *)

(** A comprehension whose test never raises is a filter. *)
Lemma comprehension_filter {A : Type} (test : A -> option bool)
    (f : A -> bool) (l : list A) :
  (forall x, In x l -> test x = Some (f x)) ->
  comprehension test l = Some (List.filter f l).
Proof.
  induction l as [|x l IH]; intros H; simpl; [done|].
  rewrite (H x) by (by left). rewrite IH by (intros y Hy; apply H; by right).
  by destruct (f x).
Qed.

Lemma filter_filter_andb {A : Type} (f g : A -> bool) (l : list A) :
  List.filter g (List.filter f l) = List.filter (fun x => f x && g x) l.
Proof.
  induction l as [|x l IH]; simpl; [done|].
  destruct (f x); simpl; [destruct (g x)|]; by rewrite IH.
Qed.

Lemma filter_ext_In {A : Type} (f g : A -> bool) (l : list A) :
  (forall x, In x l -> f x = g x) -> List.filter f l = List.filter g l.
Proof.
  induction l as [|x l IH]; intros H; simpl; [done|].
  rewrite (H x) by (by left). rewrite IH by (intros y Hy; apply H; by right).
  done.
Qed.

Lemma retained_split st min_price max_price l :
  retained st min_price None l && retained st None max_price l
  = retained st min_price max_price l.
Proof.
  unfold retained, within_bounds. destruct (Item.price (item_at st l)); [|done].
  destruct min_price, max_price; simpl; by rewrite ?andb_true_r.
Qed.

(** The first filter step, on a list whose items all have a price. *)
Lemma apply_filter_ge st min_price ls :
  (forall l, In l ls -> is_Some (Item.price (item_at st l))) ->
  apply_filter (price_ge st) min_price ls
  = Some (List.filter (retained st min_price None) ls).
Proof.
  intros H. destruct min_price as [m|]; simpl.
  - apply comprehension_filter. intros l Hl. destruct (H l Hl) as [p Hp].
    unfold price_ge, retained, within_bounds. rewrite Hp.
    by rewrite andb_true_r.
  - f_equal. symmetry. apply forallb_filter_id, forallb_forall.
    intros l Hl. destruct (H l Hl) as [p Hp]. unfold retained. by rewrite Hp.
Qed.

(** The second filter step. *)
Lemma apply_filter_le st max_price ls :
  (forall l, In l ls -> is_Some (Item.price (item_at st l))) ->
  apply_filter (price_le st) max_price ls
  = Some (List.filter (retained st None max_price) ls).
Proof.
  intros H. destruct max_price as [m|]; simpl.
  - apply comprehension_filter. intros l Hl. destruct (H l Hl) as [p Hp].
    unfold price_le, retained, within_bounds. by rewrite Hp.
  - f_equal. symmetry. apply forallb_filter_id, forallb_forall.
    intros l Hl. destruct (H l Hl) as [p Hp]. unfold retained. by rewrite Hp.
Qed.

(** [get_all_items] slices what the two filter steps leave. *)
Lemma get_all_items_filter_items st skip limit min_price max_price :
  get_all_items st skip limit min_price max_price
  = match filter_items st min_price max_price with
    | None => ServerError
    | Some fl => Ok (py_slice fl skip (skip + limit))
    end.
Proof.
  unfold get_all_items, filter_items.
  by destruct (apply_filter (price_ge st) min_price _).
Qed.

(** When every stored item has a price, the two steps keep the items that
    satisfy both bounds. *)
Lemma filter_items_retained st min_price max_price :
  prices_set st ->
  filter_items st min_price max_price
  = Some (List.filter (retained st min_price max_price)
            (dict_values (items_db st))).
Proof.
  intros H. unfold filter_items. rewrite apply_filter_ge by exact H.
  rewrite apply_filter_le.
  - rewrite filter_filter_andb. f_equal. apply filter_ext_In.
    intros l _. apply retained_split.
  - intros l Hl. apply filter_In in Hl as [Hl _]. by apply H.
Qed.

(** Without a bound nothing is filtered, whatever the prices are. *)
Lemma filter_items_no_bound st :
  filter_items st None None = Some (dict_values (items_db st)).
Proof. reflexivity. Qed.

(** The stored items that satisfy the bounds are those that [retained]
    keeps, when a bound is supplied. *)
Lemma retained_satisfies_bounds st min_price max_price l :
  is_Some min_price \/ is_Some max_price ->
  retained st min_price max_price l = true <->
  satisfies_bounds st min_price max_price l.
Proof.
  intros Hb. unfold retained, satisfies_bounds, within_bounds.
  destruct (Item.price (item_at st l)) as [p|].
  - rewrite andb_true_iff. split.
    + intros [Hmin Hmax]. split; intros m ->; eauto.
    + intros [Hmin Hmax]. split.
      * destruct min_price as [m|]; [|done].
        by destruct (Hmin m eq_refl) as (p' & [= <-] & H).
      * destruct max_price as [m|]; [|done].
        by destruct (Hmax m eq_refl) as (p' & [= <-] & H).
  - split; [done|]. intros [Hmin Hmax].
    destruct Hb as [[m ->]|[m ->]].
    + by destruct (Hmin m eq_refl) as (p' & [=] & _).
    + by destruct (Hmax m eq_refl) as (p' & [=] & _).
Qed.

Lemma py_slice_covers {A : Type} (ls : list A) (n : Z) :
  Z.of_nat (length ls) <= n -> py_slice ls 0 (0 + n) = ls.
Proof.
  intros Hn. rewrite py_slice_window by lia. rewrite drop_0.
  apply take_ge. lia.
Qed.

(** C1, as the code has it: the listing filters before it slices. Without
    a bound in every store, and with a bound in every store in which every
    item has a price, it answers the window of the list [selected] of the
    items, in the order of the dictionary, that satisfy every bound that
    was supplied ([price >= min_price], [price <= max_price]); an absent
    bound keeps everything. When the window starts at 0 and covers the
    collection, the unfiltered listing is the collection and the listing
    with bounds is [selected], the part of the unfiltered listing within
    the bounds, as with [min_price=10] and [max_price=20]. *)
Theorem price_filters_conjunctive (st : state) (skip limit : Z)
    (min_price max_price : option float) :
  (is_Some min_price \/ is_Some max_price -> prices_set st) ->
  let all := dict_values (items_db st) in
  exists keep : loc -> bool,
    let selected := List.filter keep all in
    get_all_items st skip limit min_price max_price
    = Ok (py_slice selected skip (skip + limit)) /\
    (forall l, In l all ->
       (keep l = true <-> satisfies_bounds st min_price max_price l)) /\
    (forall l, In l selected <->
       In l all /\ satisfies_bounds st min_price max_price l) /\
    (min_price = None -> max_price = None -> selected = all) /\
    (Z.of_nat (length all) <= limit ->
       get_all_items st 0 limit None None = Ok all /\
       get_all_items st 0 limit min_price max_price = Ok selected /\
       (min_price = Some 10%float -> max_price = Some 20%float ->
        forall l, In l selected <->
          In l all /\
          exists p, Item.price (item_at st l) = Some p /\
                    PrimFloat.leb 10 p = true /\ PrimFloat.leb p 20 = true)).
Proof.
  intros Hp all.
  assert (Hunfiltered : forall n, Z.of_nat (length all) <= n ->
            get_all_items st 0 n None None = Ok all).
  { intros n Hn. rewrite get_all_items_filter_items, filter_items_no_bound.
    by rewrite py_slice_covers. }
  assert (Hbounds : is_Some min_price \/ is_Some max_price \/
                    (min_price = None /\ max_price = None)).
  { destruct min_price; [left; eauto|].
    destruct max_price; [right; left; eauto | right; right; done]. }
  assert (Hcase : exists keep : loc -> bool,
            filter_items st min_price max_price
            = Some (List.filter keep all) /\
            (forall l, In l all ->
               (keep l = true <-> satisfies_bounds st min_price max_price l)) /\
            (min_price = None -> max_price = None ->
             List.filter keep all = all)).
  { assert (Hsome : is_Some min_price \/ is_Some max_price ->
              exists keep : loc -> bool,
                filter_items st min_price max_price
                = Some (List.filter keep all) /\
                (forall l, In l all ->
                   (keep l = true <->
                    satisfies_bounds st min_price max_price l)) /\
                (min_price = None -> max_price = None ->
                 List.filter keep all = all)).
    { intros Hb. exists (retained st min_price max_price). split; [|split].
      - by apply filter_items_retained, Hp.
      - intros l _. by apply retained_satisfies_bounds.
      - intros -> ->. by destruct Hb as [[? [=]]|[? [=]]]. }
    destruct Hbounds as [Hb|[Hb|[-> ->]]]; [by apply Hsome; left
                                           |by apply Hsome; right|].
    exists (fun _ => true).
    assert (Hall : List.filter (fun _ : loc => true) all = all).
    { by apply forallb_filter_id, forallb_forall. }
    split; [|split]; [by rewrite Hall | | done].
    intros l _. split; [|done]. intros _. by split; intros m [=]. }
  destruct Hcase as (keep & Hfl & Hkeep & Hnone).
  assert (Hin : forall l, In l (List.filter keep all) <->
                  In l all /\ satisfies_bounds st min_price max_price l).
  { intros l. rewrite filter_In. split.
    - intros [Hl Hk]. split; [done | by apply Hkeep].
    - intros [Hl Hs]. split; [done | by apply Hkeep]. }
  exists keep. split; [|split; [exact Hkeep|split; [exact Hin|split]]].
  - by rewrite get_all_items_filter_items, Hfl.
  - exact Hnone.
  - intros Hcover. split; [by apply Hunfiltered|]. split.
    + rewrite get_all_items_filter_items, Hfl. rewrite py_slice_covers; [done|].
      pose proof (filter_length_le keep all). lia.
    + intros -> -> l. rewrite Hin. unfold satisfies_bounds. split.
      * intros (Hl & Hmin & Hmax). split; [done|].
        destruct (Hmin _ eq_refl) as (p & Hpl & Hge).
        destruct (Hmax _ eq_refl) as (p' & Hpl' & Hle).
        exists p. split; [done|]. split; [done|]. congruence.
      * intros (Hl & p & Hpl & Hge & Hle). split; [done|].
        split; intros m [= <-]; eauto.
Qed.

Lemma shop_state_prices_set : prices_set shop_state.
Proof.
  intros l Hl. simpl in Hl.
  destruct Hl as [<-|[<-|[<-|[]]]]; vm_compute; eauto.
Qed.

Lemma price_filters_conjunctive_witness :
  get_all_items shop_state 0 10 (Some 10%float) (Some 20%float) = Ok [1%nat] /\
  get_all_items shop_state 0 10 None None = Ok [0%nat; 1%nat; 2%nat] /\
  In 1%nat (dict_values (items_db shop_state)) /\
  satisfies_bounds shop_state (Some 10%float) (Some 20%float) 1%nat.
Proof.
  destruct (price_filters_conjunctive shop_state 0 10 (Some 10%float)
              (Some 20%float) (fun _ => shop_state_prices_set))
    as (keep & _ & _ & Hin & _ & Hcover).
  destruct Hcover as (Hall & Hsel & _); [vm_compute; discriminate|].
  assert (Hone : get_all_items shop_state 0 10 (Some 10%float) (Some 20%float)
                 = Ok [1%nat]) by reflexivity.
  assert (Hs : List.filter keep (dict_values (items_db shop_state)) = [1%nat])
    by congruence.
  split; [exact Hone|]. split; [exact Hall|].
  apply Hin. rewrite Hs. by left.
Defined.

(** With eleven items, the first priced 5 and the others 15, and the
    window of the defaults ([skip = 0], [limit = 10]): the listing with the
    bounds 10 and 20 answers the eleventh item, which the listing without
    bounds does not answer, so it is not the part of the unfiltered
    listing with a price within the bounds. And after an update has set the
    price of the one item to null, the listing with the bounds raises. *)
Lemma bounded_listing_counterexample :
  get_all_items eleven_items 0 10 None None
  = Ok [0; 1; 2; 3; 4; 5; 6; 7; 8; 9]%nat /\
  get_all_items eleven_items 0 10 (Some 10%float) (Some 20%float)
  = Ok [1; 2; 3; 4; 5; 6; 7; 8; 9; 10]%nat /\
  List.filter (retained eleven_items (Some 10%float) (Some 20%float))
    [0; 1; 2; 3; 4; 5; 6; 7; 8; 9]%nat
  = [1; 2; 3; 4; 5; 6; 7; 8; 9]%nat /\
  get_all_items
    (run sample_EmailStr init (setup_run ++ [PutItem "i-1" null_price])%list)
    0 10 (Some 10%float) (Some 20%float)
  = ServerError.
Proof. repeat split; vm_compute; reflexivity. Qed.

(** ** Pagination *)

(** A limit of 101 is at least 1, and both listings refuse it. *)
Lemma limit_above_100_counterexample :
  0 <= 0 /\ 1 <= 101 /\
  GET_users sample_state 0 101 = ValidationError /\
  GET_items sample_state 0 101 None None = ValidationError.
Proof. repeat split; discriminate. Qed.

(** The query parameters of a listing pass their schema exactly in these
    ranges. *)
Lemma window_query_ok skip limit :
  0 <= skip -> 1 <= limit <= 100 -> skip_ok skip && limit_ok limit = true.
Proof.
  intros Hs Hl. unfold skip_ok, limit_ok.
  apply andb_true_intro. split; [lia|]. apply andb_true_intro. lia.
Qed.

Lemma window_query_refused skip limit :
  100 < limit -> skip_ok skip && limit_ok limit = false.
Proof.
  intros Hl. unfold limit_ok. replace (limit <=? 100) with false by lia.
  by rewrite !andb_false_r.
Qed.

(** The item listing pages through the list that its filter steps leave. *)
Lemma GET_items_pages_through st min_price max_price fl :
  price_query_ok min_price = true -> price_query_ok max_price = true ->
  filter_items st min_price max_price = Some fl ->
  pages_through (fun skip limit => GET_items st skip limit min_price max_price)
    fl.
Proof.
  intros Hmin Hmax Hfl. destruct (py_slice_pages fl) as [Hpage Hcat].
  unfold pages_through, GET_items. rewrite Hmin, Hmax.
  split; [|split].
  - intros skip limit Hs Hl. rewrite !andb_true_r, window_query_ok by done.
    rewrite get_all_items_filter_items, Hfl.
    destruct (Hpage skip limit Hs Hl) as (H1 & H2 & H3). eauto.
  - intros n m Hn Hm Hnm. rewrite !andb_true_r, !window_query_ok by lia.
    rewrite !get_all_items_filter_items, Hfl.
    do 3 eexists. repeat split. by apply Hcat.
  - intros skip limit Hl. by rewrite !andb_true_r, window_query_refused.
Qed.

(** C2, as the code has it: for [skip >= 0] and [1 <= limit <= 100] a
    listing answers, without an error, the at most [limit] records that
    follow the first [skip] records of the collection after the filters,
    and nothing when [skip] reaches the size of that collection; two
    adjacent pages of sizes [n] and [m], with [n + m <= 100], make up the
    page of size [n + m]; a limit above 100 is refused with a validation
    error. This holds for the users in every store. It holds for the items
    with bounds that pass their schema, in every store in which every item
    has a price when a bound is supplied; the collection after the filters
    is then the list of the items within the bounds, and the whole
    collection when no bound is supplied. *)
Theorem listing_pages_through :
  (forall st, pages_through (GET_users st) (dict_values (users_db st))) /\
  (forall st min_price max_price,
     price_query_ok min_price = true -> price_query_ok max_price = true ->
     (is_Some min_price \/ is_Some max_price -> prices_set st) ->
     exists fl,
       pages_through
         (fun skip limit => GET_items st skip limit min_price max_price) fl /\
       (prices_set st ->
          fl = List.filter (retained st min_price max_price)
                 (dict_values (items_db st))) /\
       (min_price = None -> max_price = None ->
          fl = dict_values (items_db st))).
Proof.
  split.
  - intros st. destruct (py_slice_pages (dict_values (users_db st)))
      as [Hpage Hcat].
    unfold pages_through, GET_users, get_all_users. split; [|split].
    + intros skip limit Hs Hl. rewrite window_query_ok by done.
      destruct (Hpage skip limit Hs Hl) as (H1 & H2 & H3). eauto.
    + intros n m Hn Hm Hnm. rewrite !window_query_ok by lia.
      do 3 eexists. repeat split. by apply Hcat.
    + intros skip limit Hl. by rewrite window_query_refused.
  - intros st min_price max_price Hmin Hmax Hp.
    destruct (filter_items st min_price max_price) as [fl|] eqn:Hfl.
    + exists fl. split; [by apply GET_items_pages_through|]. split.
      * intros Hset. rewrite filter_items_retained in Hfl by done. congruence.
      * intros -> ->. rewrite filter_items_no_bound in Hfl. congruence.
    + destruct min_price as [m|].
      * rewrite filter_items_retained in Hfl; [done|]. apply Hp. left. eauto.
      * destruct max_price as [m|]; [|by rewrite filter_items_no_bound in Hfl].
        rewrite filter_items_retained in Hfl; [done|]. apply Hp. right. eauto.
Qed.

Lemma listing_pages_through_witness :
  GET_items shop_state 1 1 (Some 10%float) None = Ok [2%nat] /\
  exists r1 r2 r,
    GET_items shop_state 0 1 (Some 10%float) None = Ok r1 /\
    GET_items shop_state 1 2 (Some 10%float) None = Ok r2 /\
    GET_items shop_state 0 (1 + 2) (Some 10%float) None = Ok r /\
    (r1 ++ r2)%list = r.
Proof.
  destruct (proj2 listing_pages_through shop_state (Some 10%float) None
              eq_refl eq_refl (fun _ => shop_state_prices_set))
    as (fl & (Hpage & Hcat & _) & Hfl & _).
  specialize (Hfl shop_state_prices_set). vm_compute in Hfl. subst fl.
  split.
  - destruct (Hpage 1 1) as (r & Hr & -> & _); [lia | lia | exact Hr].
  - apply Hcat; lia.
Defined.

(** ** Search by email *)

Lemma append_cons (c : ascii) (s t : string) :
  String c s ++ t = String c (s ++ t).
Proof. reflexivity. Qed.

Lemma prefix_app (s t : string) :
  String.prefix s t = true <-> exists post, t = s ++ post.
Proof.
  revert t. induction s as [|a s IH]; intros t; simpl.
  - destruct t; split; eauto.
  - destruct t as [|b t]; simpl.
    + split; [done | intros [post H]; discriminate].
    + destruct (ascii_dec a b) as [->|Hne].
      * rewrite IH. split; intros [post H]; exists post;
          rewrite append_cons in *; congruence.
      * split; [done | intros [post H]; rewrite append_cons in H; congruence].
Qed.

(** [str_in] finds the needle exactly when the haystack splits around it. *)
Lemma str_in_app (needle hay : string) :
  str_in needle hay = true <-> exists pre post, hay = pre ++ needle ++ post.
Proof.
  induction hay as [|c hay IH]; cbn [str_in].
  - rewrite orb_false_r, prefix_app. split.
    + intros [post H]. by exists "", post.
    + intros (pre & post & H). destruct pre; [by exists post | discriminate].
  - rewrite orb_true_iff, prefix_app, IH. split.
    + intros [[post H] | (pre & post & H)].
      * by exists "", post.
      * exists (String c pre), post. rewrite append_cons. by rewrite H.
    + intros (pre & post & H). destruct pre as [|c' pre].
      * left. by exists post.
      * right. exists pre, post. rewrite append_cons in H. congruence.
Qed.

(** On a store in which every user has an email, the search answers the
    users for whose email the lower-cased search string occurs in the
    lower-cased email: all of them, each once, in the order of the
    dictionary, with no window. *)
Theorem search_by_email_ci_substring (lower : string -> string) (st : state)
    (q : string) :
  emails_set st ->
  exists (r : list loc) (keep : loc -> bool),
    search_users_by_email lower st q = Ok r /\
    r = List.filter keep (dict_values (users_db st)) /\
    (forall l, In l (dict_values (users_db st)) ->
       (keep l = true <-> email_contains lower st q l)) /\
    (forall l, In l r <->
       In l (dict_values (users_db st)) /\ email_contains lower st q l).
Proof.
  intros He.
  set (keep := fun l => match User.email (user_at st l) with
                        | Some e => str_in (lower q) (lower e)
                        | None => false
                        end).
  assert (Hkeep : forall l, keep l = true <-> email_contains lower st q l).
  { intros l. unfold keep, email_contains, ci_substring.
    destruct (User.email (user_at st l)) as [e|].
    - rewrite str_in_app. split.
      + intros (pre & post & H). eauto.
      + intros (e' & [= <-] & H). done.
    - split; [done | by intros (e' & [=] & _)]. }
  exists (List.filter keep (dict_values (users_db st))), keep.
  split; [|split; [done|split]].
  - unfold search_users_by_email.
    rewrite (comprehension_filter _ keep); [done|].
    intros l Hl. destruct (He l Hl) as [e Hle].
    unfold email_matches, keep. by rewrite Hle.
  - intros l _. by apply Hkeep.
  - intros l. rewrite filter_In. by rewrite Hkeep.
Qed.

Lemma crowd_state_emails_set : emails_set crowd_state.
Proof.
  intros l Hl. simpl in Hl. destruct Hl as [<-|[<-|[]]]; vm_compute; eauto.
Qed.

Lemma search_by_email_ci_substring_witness :
  search_users_by_email sample_lower crowd_state "EXAMPLE" = Ok [0%nat] /\
  search_users_by_email sample_lower crowd_state ".o" = Ok [1%nat] /\
  email_contains sample_lower crowd_state "EXAMPLE" 0%nat.
Proof.
  destruct (search_by_email_ci_substring sample_lower crowd_state "EXAMPLE"
              crowd_state_emails_set) as (r & keep & Hr & _ & Hk & Hin).
  split; [reflexivity|]. split; [reflexivity|].
  apply (Hin 0%nat). vm_compute in Hr. injection Hr as <-. by left.
Defined.

(** C9, at the run that creates two users and then sends
    [PUT /users/u-2] with the body [{"email": null}]: the update is
    accepted and leaves a stored user without an email, and from then on
    the search raises for every search string, where before it answered. *)
Theorem search_after_null_email_raises (lower : string -> string) (q : string) :
  let st := run sample_EmailStr init two_users_run in
  let st' := run sample_EmailStr st
               [PutUser "u-2" (UserUpdate.mk Absent (Given None) Absent)] in
  (exists r, search_users_by_email lower st q = Ok r) /\
  get_user st' "u-2" = Ok 1%nat /\
  User.email (user_at st' 1%nat) = None /\
  search_users_by_email lower st' q = ServerError.
Proof.
  intros st st'. split; [|split; [reflexivity|split; [reflexivity|]]].
  - unfold search_users_by_email.
    change (dict_values (users_db st)) with [0%nat; 1%nat].
    unfold comprehension, email_matches.
    change (User.email (user_at st 0%nat)) with (Some "ramesh@example.com").
    change (User.email (user_at st 1%nat)) with (Some "bob@test.org").
    by eexists.
  - unfold search_users_by_email.
    change (dict_values (users_db st')) with [0%nat; 1%nat].
    unfold comprehension, email_matches.
    change (User.email (user_at st' 1%nat)) with (@None string).
    by destruct (User.email (user_at st' 0%nat)).
Qed.

(** ** Identifiers *)

Section identifiers.
Variable EmailStr : string -> option string.

(** A create request whose body passes its schema stores a new object
    under the answer of [uuid4()], with that answer as its [id] and the
    answer of [datetime.now()] as its [created_at]. *)
Lemma POST_users_Ok st body uuid now u :
  User_validate EmailStr body = Some u ->
  exists l st',
    POST_users EmailStr st body uuid now = (Ok l, st') /\
    user_at st' l = User.mk (Some uuid) (User.name u) (User.email u)
                      (User.age u) (Some now) /\
    get_user st' uuid = Ok l.
Proof.
  intros Hv. unfold POST_users. rewrite Hv. simpl. do 2 eexists.
  split; [done|]. unfold user_at, get_user. simpl. split.
  - by rewrite lookup_total_insert_eq.
  - by rewrite dict_get_set_eq.
Qed.

Lemma POST_items_Ok st body uuid now i :
  Item_validate body = Some i ->
  exists l st',
    POST_items st body uuid now = (Ok l, st') /\
    item_at st' l = Item.mk (Some uuid) (Item.title i) (Item.description i)
                      (Item.price i) (Item.quantity i) (Some now) /\
    get_item st' uuid = Ok l.
Proof.
  intros Hv. unfold POST_items. rewrite Hv. simpl. do 2 eexists.
  split; [done|]. unfold item_at, get_item. simpl. split.
  - by rewrite lookup_total_insert_eq.
  - by rewrite dict_get_set_eq.
Qed.

(** The identifiers handed out in a run are the answers of [uuid4()]. *)
Lemma user_ids_issued_uuid4 st rs :
  user_ids_issued EmailStr st rs = user_uuid4_calls EmailStr rs.
Proof.
  revert st. induction rs as [|r rs IH]; intros st; [done|].
  cbn [user_ids_issued user_uuid4_calls flat_map]. rewrite IH. f_equal.
  destruct r; try done. cbn [user_id_issued uuid4_call].
  destruct (User_validate EmailStr body) as [u|] eqn:Hv.
  - destruct (POST_users_Ok st body uuid now u Hv) as (l & st' & -> & Hat & _).
    by rewrite Hat.
  - unfold POST_users. by rewrite Hv.
Qed.

Lemma item_ids_issued_uuid4 st rs :
  item_ids_issued EmailStr st rs = item_uuid4_calls EmailStr rs.
Proof.
  revert st. induction rs as [|r rs IH]; intros st; [done|].
  cbn [item_ids_issued item_uuid4_calls flat_map]. rewrite IH. f_equal.
  destruct r; try done. cbn [item_id_issued uuid4_call].
  destruct (Item_validate body) as [i|] eqn:Hv.
  - destruct (POST_items_Ok st body uuid now i Hv) as (l & st' & -> & Hat & _).
    by rewrite Hat.
  - unfold POST_items. by rewrite Hv.
Qed.

End identifiers.

Lemma string_length_app (s t : string) :
  String.length (s ++ t) = (String.length s + String.length t)%nat.
Proof. induction s as [|c s IH]; [done|]. rewrite append_cons. simpl. lia. Qed.

Lemma hex_length (digits : nat) (n : N) : String.length (hex digits n) = digits.
Proof.
  revert n. induction digits as [|k IH]; intros n; [done|].
  simpl. rewrite string_length_app, IH. simpl. lia.
Qed.

(** The text of a UUID has 36 characters. *)
Lemma UUID_str_length (int : N) : String.length (UUID_str int) = 36%nat.
Proof.
  unfold UUID_str. rewrite !string_length_app, !hex_length. reflexivity.
Qed.

(** C7, as the code has it: a create request whose body passes its schema
    stores the record under [str(uuid4())] and gives it that text as
    identifier and the answer of [datetime.now()] as creation timestamp,
    whatever the body supplied for the two; the identifier has 36
    characters, so it is not empty. The identifiers handed out for a
    collection during a run are exactly the answers of [uuid4()], in
    order: they differ from each other exactly when these answers do. The
    handlers compare nothing. *)
Theorem server_assigns_identifiers (EmailStr : string -> option string) :
  (forall st body random now u,
     User_validate EmailStr body = Some u ->
     let uuid := UUID_str (uuid4 random) in
     exists l st',
       POST_users EmailStr st body uuid now = (Ok l, st') /\
       User.id (user_at st' l) = Some uuid /\
       User.created_at (user_at st' l) = Some now /\
       get_user st' uuid = Ok l /\
       String.length uuid = 36%nat /\ uuid <> "") /\
  (forall st body random now i,
     Item_validate body = Some i ->
     let uuid := UUID_str (uuid4 random) in
     exists l st',
       POST_items st body uuid now = (Ok l, st') /\
       Item.id (item_at st' l) = Some uuid /\
       Item.created_at (item_at st' l) = Some now /\
       get_item st' uuid = Ok l /\
       String.length uuid = 36%nat /\ uuid <> "") /\
  (forall st rs,
     user_ids_issued EmailStr st rs = user_uuid4_calls EmailStr rs /\
     (NoDup (user_ids_issued EmailStr st rs) <->
      NoDup (user_uuid4_calls EmailStr rs))) /\
  (forall st rs,
     item_ids_issued EmailStr st rs = item_uuid4_calls EmailStr rs /\
     (NoDup (item_ids_issued EmailStr st rs) <->
      NoDup (item_uuid4_calls EmailStr rs))).
Proof.
  assert (Hne : forall random, UUID_str (uuid4 random) <> "").
  { intros random H. pose proof (UUID_str_length (uuid4 random)) as Hl.
    rewrite H in Hl. discriminate. }
  split; [|split; [|split]].
  - intros st body random now u Hv uuid.
    destruct (POST_users_Ok EmailStr st body uuid now u Hv)
      as (l & st' & Hpost & Hat & Hget).
    exists l, st'. split; [done|]. split; [by rewrite Hat|].
    split; [by rewrite Hat|]. split; [done|].
    split; [apply UUID_str_length | apply Hne].
  - intros st body random now i Hv uuid.
    destruct (POST_items_Ok st body uuid now i Hv)
      as (l & st' & Hpost & Hat & Hget).
    exists l, st'. split; [done|]. split; [by rewrite Hat|].
    split; [by rewrite Hat|]. split; [done|].
    split; [apply UUID_str_length | apply Hne].
  - intros st rs. by rewrite user_ids_issued_uuid4.
  - intros st rs. by rewrite item_ids_issued_uuid4.
Qed.

Lemma server_assigns_identifiers_witness :
  exists l st',
    POST_users sample_EmailStr init sample_user_body
      "00000000-0000-4000-8000-000000000007" 1000 = (Ok l, st') /\
    User.id (user_at st' l) = Some "00000000-0000-4000-8000-000000000007" /\
    User.created_at (user_at st' l) = Some 1000.
Proof.
  destruct (server_assigns_identifiers sample_EmailStr) as (Hu & _).
  destruct (Hu init sample_user_body 7%N 1000 _ eq_refl)
    as (l & st' & H1 & H2 & H3 & _).
  by exists l, st'.
Defined.

(** When [uuid4()] gives the same answer to two creates, both records get
    the same identifier: the identifiers handed out are not distinct, and
    the identifier leads to the second record only. *)
Lemma repeated_answer_counterexample :
  user_ids_issued sample_EmailStr init repeated_answer_run
  = ["00000000-0000-4000-8000-000000000007";
     "00000000-0000-4000-8000-000000000007"] /\
  ~ NoDup (user_ids_issued sample_EmailStr init repeated_answer_run) /\
  get_user (run sample_EmailStr init repeated_answer_run)
    "00000000-0000-4000-8000-000000000007" = Ok 1%nat /\
  len (users_db (run sample_EmailStr init repeated_answer_run)) = 1.
Proof.
  split; [vm_compute; reflexivity|]. split; [|split; vm_compute; reflexivity].
  intros H. apply (bool_decide_pack _) in H. vm_compute in H. exact H.
Qed.

(** ** Null members in an update *)

Lemma User_validate_null_name EmailStr (body : UserBody.t) :
  UserBody.name body = Given None -> User_validate EmailStr body = None.
Proof. intros H. unfold User_validate. by rewrite H. Qed.

(** [PUT /users/{user_id}] with the body [{"name": null}] on a stored
    user: the request is accepted and the stored name becomes [None]. *)
Lemma PUT_user_null_name EmailStr st id l :
  dict_get (users_db st) id = Some l ->
  exists st',
    PUT_user EmailStr st id null_name = (Ok l, st') /\
    get_user st' id = Ok l /\
    User.name (user_at st' l) = None.
Proof.
  intros Hl. unfold PUT_user. simpl. unfold update_user. rewrite Hl.
  eexists. split; [done|]. unfold get_user, user_at. simpl.
  rewrite dict_get_set_eq. split; [done|].
  by rewrite lookup_total_insert_eq.
Qed.

Lemma PUT_item_null_price st id l :
  dict_get (items_db st) id = Some l ->
  exists st',
    PUT_item st id null_price = (Ok l, st') /\
    get_item st' id = Ok l /\
    Item.price (item_at st' l) = None.
Proof.
  intros Hl. unfold PUT_item. simpl. unfold update_item. rewrite Hl.
  eexists. split; [done|]. unfold get_item, item_at. simpl.
  rewrite dict_get_set_eq. split; [done|].
  by rewrite lookup_total_insert_eq.
Qed.

(** A request that fails its schema does not reach the handler: the store
    is as before. *)
Lemma PUT_user_invalid EmailStr st id body :
  UserUpdate_validate EmailStr body = None ->
  PUT_user EmailStr st id body = (ValidationError, st).
Proof. intros H. unfold PUT_user. by rewrite H. Qed.

Lemma PUT_item_invalid st id body :
  ItemUpdate_validate body = None ->
  PUT_item st id body = (ValidationError, st).
Proof. intros H. unfold PUT_item. by rewrite H. Qed.

(** The handler itself never answers with a validation error. *)
Lemma PUT_user_ValidationError EmailStr st id body st' :
  PUT_user EmailStr st id body = (ValidationError, st') <->
  UserUpdate_validate EmailStr body = None /\ st' = st.
Proof.
  unfold PUT_user. destruct (UserUpdate_validate EmailStr body) as [upd|].
  - unfold update_user. destruct (dict_get (users_db st) id); split;
      (intros [= ] || intros [[=] _]).
  - split; [by intros [= <-] | by intros [_ ->]].
Qed.

(** A member of an update fails its schema exactly when it is given with a
    value that the constraint refuses. *)
Lemma optional_field_None {A B : Type} (parse : A -> option B) (f : field A) :
  optional_field parse f = None <-> exists v, f = Given (Some v) /\ parse v = None.
Proof.
  destruct f as [|[v|]]; simpl.
  - split; [done | by intros (v & [=] & _)].
  - destruct (parse v) eqn:E.
    + split; [done | intros (v' & [= <-] & H); congruence].
    + split; [eauto | done].
  - split; [done | by intros (v & [=] & _)].
Qed.

Lemma UserUpdate_validate_None EmailStr (body : UserUpdate.t) :
  UserUpdate_validate EmailStr body = None <->
  (exists n, UserUpdate.name body = Given (Some n) /\
             str_len_ok 1 100 n = false) \/
  (exists e, UserUpdate.email body = Given (Some e) /\ EmailStr e = None) \/
  (exists a, UserUpdate.age body = Given (Some a) /\ age_ok a = false).
Proof.
  assert (Hc : forall {A} (ok : A -> bool) v, check ok v = None <-> ok v = false).
  { intros A ok v. unfold check. by destruct (ok v). }
  unfold UserUpdate_validate.
  pose proof (optional_field_None (check (str_len_ok 1 100))
                (UserUpdate.name body)) as Hn.
  pose proof (optional_field_None EmailStr (UserUpdate.email body)) as He.
  pose proof (optional_field_None (check age_ok) (UserUpdate.age body)) as Ha.
  destruct (optional_field (check (str_len_ok 1 100)) _) as [n|].
  - destruct (optional_field EmailStr _) as [e|].
    + destruct (optional_field (check age_ok) _) as [a|].
      * split; [done|]. intros [(x & Hx & Hok)|[(x & Hx & Hok)|(x & Hx & Hok)]].
        -- enough (Some n = None) by done. apply Hn. exists x. by rewrite Hc.
        -- enough (Some e = None) by done. apply He. by exists x.
        -- enough (Some a = None) by done. apply Ha. exists x. by rewrite Hc.
      * split; [|done]. intros _. right. right.
        destruct (proj1 Ha eq_refl) as (x & Hx & Hok). exists x.
        by rewrite <- Hc.
    + split; [|done]. intros _. right. left. by apply He.
  - split; [|done]. intros _. left.
    destruct (proj1 Hn eq_refl) as (x & Hx & Hok). exists x. by rewrite <- Hc.
Qed.

(** C4, at the request [PUT /users/u-1] with the body [{"name": null}]: a
    create request with a null name fails its schema, but the update is
    accepted and overwrites the stored name with [None]. *)
Theorem null_name_accepted_by_update :
  let st := run sample_EmailStr init setup_run in
  User_validate sample_EmailStr
    (UserBody.mk Absent (Given None) (Given (Some "ramesh@example.com"))
       (Given (Some 25)) Absent) = None /\
  get_user st "u-1" = Ok 0%nat /\
  User.name (user_at st 0%nat) = Some "Ramesh Kumar Sah" /\
  exists st',
    PUT_user sample_EmailStr st "u-1" null_name = (Ok 0%nat, st') /\
    User.name (user_at st' 0%nat) = None.
Proof.
  intros st. split; [reflexivity|]. split; [reflexivity|].
  split; [reflexivity|].
  destruct (PUT_user_null_name sample_EmailStr st "u-1" 0%nat eq_refl)
    as (st' & Hput & _ & Hname).
  by exists st'.
Qed.

(** C5, at the run that creates a user and an item and then sends
    [PUT /users/u-1] with the body [{"name": null}]: the store satisfies
    the field constraints before the update and not after it, where
    [GET /users/u-1] leads to a user without a name. The same happens to an
    item with [{"price": null}], after which a listing with a price bound
    raises. *)
Theorem null_update_breaks_constraints :
  let st := run sample_EmailStr init setup_run in
  let st_user := run sample_EmailStr st [PutUser "u-1" null_name] in
  let st_item := run sample_EmailStr st [PutItem "i-1" null_price] in
  store_ok sample_EmailStr st /\
  get_user st_user "u-1" = Ok 0%nat /\
  User.name (user_at st_user 0%nat) = None /\
  ~ store_ok sample_EmailStr st_user /\
  get_item st_item "i-1" = Ok 1%nat /\
  Item.price (item_at st_item 1%nat) = None /\
  ~ store_ok sample_EmailStr st_item /\
  get_all_items st_item 0 10 (Some 0%float) None = ServerError.
Proof.
  intros st st_user st_item.
  split; [|split; [reflexivity|split; [reflexivity|split;
    [|split; [reflexivity|split; [reflexivity|split; [|reflexivity]]]]]]].
  - split; intros k l H.
    + change (users_db st) with [("u-1", 0%nat)] in H. simpl in H.
      destruct (String.eqb k "u-1"); [|done]. injection H as <-.
      split; [|split].
      * by exists "Ramesh Kumar Sah".
      * by exists "ramesh@example.com", "ramesh@example.com".
      * by exists 25.
    + change (items_db st) with [("i-1", 1%nat)] in H. simpl in H.
      destruct (String.eqb k "i-1"); [|done]. injection H as <-.
      split; [|split].
      * by exists "Widget".
      * by exists 0x1.3fae147ae147bp+3%float.
      * by exists 5.
  - intros [Hu _]. destruct (Hu "u-1" 0%nat eq_refl) as [(n & Hn & _) _].
    vm_compute in Hn. discriminate.
  - intros [_ Hi]. destruct (Hi "i-1" 1%nat eq_refl) as (_ & (p & Hp & _) & _).
    vm_compute in Hp. discriminate.
Qed.

(** ** The field constraints across requests without null *)

Section constraints.
Variable EmailStr : string -> option string.

Lemma check_Some {A : Type} (ok : A -> bool) (v v' : A) :
  check ok v = Some v' -> v' = v /\ ok v = true.
Proof. unfold check. destruct (ok v); [by intros [= <-] | done]. Qed.

Lemma required_Some {A B : Type} (parse : A -> option B) (f : field A) (b : B) :
  required parse f = Some b -> exists v, f = Given (Some v) /\ parse v = Some b.
Proof. destruct f as [|[v|]]; simpl; [done | eauto | done]. Qed.

(** What a member of a parsed update can be when the body did not give
    [null]. *)
Lemma optional_field_Some {A B : Type} (parse : A -> option B) (f : field A)
    (f' : field B) :
  optional_field parse f = Some f' -> not_null f = true ->
  f' = Absent \/ exists v v', parse v = Some v' /\ f' = Given (Some v').
Proof.
  destruct f as [|[v|]]; simpl; [intros [= <-]; by left | | done].
  destruct (parse v) as [v'|] eqn:E; [|done]. intros [= <-] _. right. eauto.
Qed.

(** A parsed body gives a record that satisfies the constraints. *)
Lemma User_validate_ok body u uuid now :
  User_validate EmailStr body = Some u ->
  User_ok EmailStr
    (User.mk (Some uuid) (User.name u) (User.email u) (User.age u) (Some now)).
Proof.
  unfold User_validate.
  destruct (required _ (UserBody.name body)) as [n|] eqn:Hn; [|done].
  destruct (required _ (UserBody.email body)) as [e|] eqn:He; [|done].
  destruct (required _ (UserBody.age body)) as [a|] eqn:Ha; [|done].
  intros [= <-]. simpl.
  apply required_Some in Hn as (n0 & _ & Hn). apply check_Some in Hn as [-> Hn].
  apply required_Some in He as (e0 & _ & He).
  apply required_Some in Ha as (a0 & _ & Ha). apply check_Some in Ha as [-> Ha].
  split; [eauto|]. split; eauto.
Qed.

Lemma Item_validate_ok body i uuid now :
  Item_validate body = Some i ->
  Item_ok (Item.mk (Some uuid) (Item.title i) (Item.description i)
             (Item.price i) (Item.quantity i) (Some now)).
Proof.
  unfold Item_validate.
  destruct (required _ (ItemBody.title body)) as [t|] eqn:Ht; [|done].
  destruct (required _ (ItemBody.price body)) as [p|] eqn:Hp; [|done].
  destruct (defaulted _ _ (ItemBody.quantity body)) as [q|] eqn:Hq; [|done].
  intros [= <-]. simpl.
  apply required_Some in Ht as (t0 & _ & Ht). apply check_Some in Ht as [-> Ht].
  apply required_Some in Hp as (p0 & _ & Hp). apply check_Some in Hp as [-> Hp].
  split; [eauto|]. split; [eauto|]. exists q. split; [done|].
  destruct (ItemBody.quantity body) as [|[q0|]]; simpl in Hq.
  - by injection Hq as <-.
  - by apply check_Some in Hq as [-> Hq].
  - done.
Qed.

(** An update without null keeps the constraints of the record. *)
Lemma User_setattrs_ok body upd u :
  UserUpdate_validate EmailStr body = Some upd ->
  null_free (PutUser "" body) = true ->
  User_ok EmailStr u -> User_ok EmailStr (User_setattrs upd u).
Proof.
  unfold UserUpdate_validate. simpl.
  destruct (optional_field _ (UserUpdate.name body)) as [n|] eqn:Hn; [|done].
  destruct (optional_field _ (UserUpdate.email body)) as [e|] eqn:He; [|done].
  destruct (optional_field _ (UserUpdate.age body)) as [a|] eqn:Ha; [|done].
  intros [= <-] Hnull (Hname & Hemail & Hage).
  apply andb_prop in Hnull as [Hnull Hna]. apply andb_prop in Hnull as [Hnn Hne].
  unfold User_ok, User_setattrs. simpl. split; [|split].
  - destruct (optional_field_Some _ _ _ Hn Hnn) as [->|(v & v' & Hv & ->)];
      [done|]. apply check_Some in Hv as [-> Hv]. simpl. eauto.
  - destruct (optional_field_Some _ _ _ He Hne) as [->|(v & v' & Hv & ->)];
      [done|]. simpl. eauto.
  - destruct (optional_field_Some _ _ _ Ha Hna) as [->|(v & v' & Hv & ->)];
      [done|]. apply check_Some in Hv as [-> Hv]. simpl. eauto.
Qed.

Lemma Item_setattrs_ok body upd i :
  ItemUpdate_validate body = Some upd ->
  null_free (PutItem "" body) = true ->
  Item_ok i -> Item_ok (Item_setattrs upd i).
Proof.
  unfold ItemUpdate_validate. simpl.
  destruct (optional_field _ (ItemUpdate.title body)) as [t|] eqn:Ht; [|done].
  destruct (optional_field _ (ItemUpdate.price body)) as [p|] eqn:Hp; [|done].
  destruct (optional_field _ (ItemUpdate.quantity body)) as [q|] eqn:Hq;
    [|done].
  intros [= <-] Hnull (Htitle & Hprice & Hquantity).
  apply andb_prop in Hnull as [Hnull Hnq]. apply andb_prop in Hnull as [Hnt Hnp].
  unfold Item_ok, Item_setattrs. simpl. split; [|split].
  - destruct (optional_field_Some _ _ _ Ht Hnt) as [->|(v & v' & Hv & ->)];
      [done|]. apply check_Some in Hv as [-> Hv]. simpl. eauto.
  - destruct (optional_field_Some _ _ _ Hp Hnp) as [->|(v & v' & Hv & ->)];
      [done|]. apply check_Some in Hv as [-> Hv]. simpl. eauto.
  - destruct (optional_field_Some _ _ _ Hq Hnq) as [->|(v & v' & Hv & ->)];
      [done|]. apply check_Some in Hv as [-> Hv]. simpl. eauto.
Qed.

End constraints.

Section preservation.
Variable EmailStr : string -> option string.

Lemma dict_get_del_Some {V : Type} (d : list (string * V)) k k' v :
  dict_get (dict_del d k) k' = Some v -> dict_get d k' = Some v.
Proof.
  destruct (String.eqb_spec k k') as [->|Hne].
  - by rewrite dict_get_del_eq.
  - by rewrite dict_get_del_ne.
Qed.

Lemma dict_get_set_Some {V : Type} (d : list (string * V)) k k' v v' :
  dict_get (dict_set d k v) k' = Some v' ->
  (k' = k /\ v' = v) \/ (k' <> k /\ dict_get d k' = Some v').
Proof.
  destruct (String.eqb_spec k k') as [->|Hne].
  - rewrite dict_get_set_eq. intros [= <-]. by left.
  - rewrite dict_get_set_ne by done. intros H. right. split; congruence.
Qed.

(** A request without null keeps the field constraints of every stored
    record, in a store whose references are to objects that were made. *)
Lemma handle_store_ok st r :
  null_free r = true ->
  refs_made st -> store_ok EmailStr st ->
  refs_made (handle EmailStr st r) /\ store_ok EmailStr (handle EmailStr st r).
Proof.
  intros Hnull [Hmu Hmi] [Hu Hi]. destruct r; simpl; try done.
  - (* POST /users *)
    unfold POST_users.
    destruct (User_validate EmailStr body) as [u|] eqn:Hv; [|done].
    unfold refs_made, store_ok, user_at, item_at. simpl.
    split; [split|split]; intros k l H.
    + apply dict_get_set_Some in H as [[_ ->]|[_ H]];
        [lia | apply Hmu in H; lia].
    + apply Hmi in H. lia.
    + apply dict_get_set_Some in H as [[_ ->]|[_ H]].
      * rewrite lookup_total_insert_eq. by eapply User_validate_ok.
      * rewrite lookup_total_insert_ne by (apply Hmu in H; lia).
        by apply (Hu k).
    + by apply (Hi k).
  - (* PUT /users/{user_id} *)
    unfold PUT_user.
    destruct (UserUpdate_validate EmailStr body) as [upd|] eqn:Hv; [|done].
    unfold update_user.
    destruct (dict_get (users_db st) user_id) as [l0|] eqn:Hl; [|done].
    rewrite (dict_set_same _ _ _ Hl).
    unfold refs_made, store_ok, user_at, item_at. simpl.
    split; [split|split]; intros k l H.
    + by apply (Hmu k).
    + by apply (Hmi k).
    + destruct (decide (l = l0)) as [->|Hne].
      * rewrite lookup_total_insert_eq.
        eapply User_setattrs_ok; [exact Hv | exact Hnull | by apply (Hu k)].
      * rewrite lookup_total_insert_ne by done. by apply (Hu k).
    + by apply (Hi k).
  - (* DELETE /users/{user_id} *)
    unfold delete_user.
    destruct (dict_get (users_db st) user_id) as [l0|] eqn:Hl; [|done].
    unfold refs_made, store_ok, user_at, item_at. simpl.
    split; [split|split]; intros k l H.
    + apply dict_get_del_Some in H. by apply (Hmu k).
    + by apply (Hmi k).
    + apply dict_get_del_Some in H. by apply (Hu k).
    + by apply (Hi k).
  - (* POST /items *)
    unfold POST_items.
    destruct (Item_validate body) as [i|] eqn:Hv; [|done].
    unfold refs_made, store_ok, user_at, item_at. simpl.
    split; [split|split]; intros k l H.
    + apply Hmu in H. lia.
    + apply dict_get_set_Some in H as [[_ ->]|[_ H]];
        [lia | apply Hmi in H; lia].
    + by apply (Hu k).
    + apply dict_get_set_Some in H as [[_ ->]|[_ H]].
      * rewrite lookup_total_insert_eq. by eapply Item_validate_ok.
      * rewrite lookup_total_insert_ne by (apply Hmi in H; lia).
        by apply (Hi k).
  - (* PUT /items/{item_id} *)
    unfold PUT_item.
    destruct (ItemUpdate_validate body) as [upd|] eqn:Hv; [|done].
    unfold update_item.
    destruct (dict_get (items_db st) item_id) as [l0|] eqn:Hl; [|done].
    rewrite (dict_set_same _ _ _ Hl).
    unfold refs_made, store_ok, user_at, item_at. simpl.
    split; [split|split]; intros k l H.
    + by apply (Hmu k).
    + by apply (Hmi k).
    + by apply (Hu k).
    + destruct (decide (l = l0)) as [->|Hne].
      * rewrite lookup_total_insert_eq.
        eapply Item_setattrs_ok; [exact Hv | exact Hnull | by apply (Hi k)].
      * rewrite lookup_total_insert_ne by done. by apply (Hi k).
  - (* DELETE /items/{item_id} *)
    unfold delete_item.
    destruct (dict_get (items_db st) item_id) as [l0|] eqn:Hl; [|done].
    unfold refs_made, store_ok, user_at, item_at. simpl.
    split; [split|split]; intros k l H.
    + by apply (Hmu k).
    + apply dict_get_del_Some in H. by apply (Hmi k).
    + by apply (Hu k).
    + apply dict_get_del_Some in H. by apply (Hi k).
Qed.

(** From the start of the process, a run of requests without null leaves
    a store in which every record satisfies its field constraints. *)
Lemma run_store_ok rs :
  forallb null_free rs = true -> store_ok EmailStr (run EmailStr init rs).
Proof.
  assert (H : forall st, refs_made st -> store_ok EmailStr st ->
                forallb null_free rs = true ->
                store_ok EmailStr (run EmailStr st rs)).
  { induction rs as [|r rs IH]; intros st Hm Hok Hnull; [done|].
    simpl in Hnull. apply andb_prop in Hnull as [Hr Hrs].
    destruct (handle_store_ok st r Hr Hm Hok) as [Hm' Hok'].
    simpl. by apply IH. }
  apply H; by split.
Qed.

End preservation.

(** ** Insertion order *)

(** A record created under a new identifier comes last in its collection. *)
Lemma create_user_last st user uuid now :
  dict_get (users_db st) uuid = None ->
  dict_values (users_db (snd (create_user st user uuid now)))
  = (dict_values (users_db st) ++ [next_obj st])%list.
Proof.
  intros H. simpl. rewrite dict_set_new by done.
  unfold dict_values. by rewrite map_app.
Qed.

Lemma create_item_last st item uuid now :
  dict_get (items_db st) uuid = None ->
  dict_values (items_db (snd (create_item st item uuid now)))
  = (dict_values (items_db st) ++ [next_obj st])%list.
Proof.
  intros H. simpl. rewrite dict_set_new by done.
  unfold dict_values. by rewrite map_app.
Qed.

(** A deletion takes one record out and leaves the others in their order. *)
Lemma dict_del_order {V : Type} (d : list (string * V)) (k : string) :
  sublist (dict_values (dict_del d k)) (dict_values d).
Proof.
  induction d as [|[k' v] d IH]; simpl; [constructor|].
  destruct (String.eqb k k'); simpl; by constructor.
Qed.

(** * Further properties of the store *)

(** ** Reachable stores *)

Section reachable.
Variable EmailStr : string -> option string.

Lemma dict_get_None_not_key {V : Type} (d : list (string * V)) k :
  dict_get d k = None -> k ∉ dict_keys d.
Proof.
  induction d as [|[k0 v0] d IH]; simpl.
  - intros _. apply not_elem_of_nil.
  - destruct (String.eqb_spec k k0) as [->|Hne]; [done|].
    intros H Hin. apply elem_of_cons in Hin as [->|Hin]; [done | by apply IH].
Qed.

Lemma dict_set_stored_keys {V : Type} (d : list (string * V)) k v v0 :
  dict_get d k = Some v0 -> dict_keys (dict_set d k v) = dict_keys d.
Proof.
  induction d as [|[k0 v1] d IH]; simpl; [done|].
  destruct (String.eqb_spec k k0) as [->|Hne]; simpl; [done|].
  intros H. by rewrite IH.
Qed.

Lemma dict_set_keys_NoDup {V : Type} (d : list (string * V)) k v :
  NoDup (dict_keys d) -> NoDup (dict_keys (dict_set d k v)).
Proof.
  destruct (dict_get d k) as [v0|] eqn:E.
  - by rewrite (dict_set_stored_keys _ _ _ _ E).
  - rewrite dict_set_new by done. unfold dict_keys. rewrite map_app. simpl.
    intros Hnd. apply NoDup_app. split; [done|]. split; [|apply NoDup_singleton].
    intros x Hin Hx. apply list_elem_of_singleton in Hx. subst x.
    by apply (dict_get_None_not_key d k).
Qed.

Lemma dict_del_keys_NoDup {V : Type} (d : list (string * V)) k :
  NoDup (dict_keys d) -> NoDup (dict_keys (dict_del d k)).
Proof.
  induction d as [|[k' v'] d IH]; simpl; [done|].
  intros Hnd. apply NoDup_cons in Hnd as [Hnotin Hnd].
  destruct (String.eqb k k'); simpl; [by apply IH|].
  apply NoDup_cons. split; [|by apply IH].
  intros Hin. apply Hnotin. clear -Hin.
  induction d as [|[k0 v0] d IH]; simpl in *; [done|].
  destruct (String.eqb k k0); simpl in *.
  - right. by apply IH.
  - apply elem_of_cons in Hin as [->|Hin]; [by left | right; by apply IH].
Qed.

(** The keys of the two dictionaries stay distinct. *)
Lemma handle_keys_NoDup st r :
  NoDup (dict_keys (users_db st)) /\ NoDup (dict_keys (items_db st)) ->
  NoDup (dict_keys (users_db (handle EmailStr st r))) /\
  NoDup (dict_keys (items_db (handle EmailStr st r))).
Proof.
  intros [Hu Hi]. destruct r; simpl; try done.
  - unfold POST_users. destruct (User_validate EmailStr body); [|done].
    simpl. split; [by apply dict_set_keys_NoDup | done].
  - unfold PUT_user. destruct (UserUpdate_validate EmailStr body); [|done].
    unfold update_user. destruct (dict_get (users_db st) user_id); [|done].
    simpl. split; [by apply dict_set_keys_NoDup | done].
  - unfold delete_user. destruct (dict_get (users_db st) user_id); [|done].
    simpl. split; [by apply dict_del_keys_NoDup | done].
  - unfold POST_items. destruct (Item_validate body); [|done].
    simpl. split; [done | by apply dict_set_keys_NoDup].
  - unfold PUT_item. destruct (ItemUpdate_validate body); [|done].
    unfold update_item. destruct (dict_get (items_db st) item_id); [|done].
    simpl. split; [done | by apply dict_set_keys_NoDup].
  - unfold delete_item. destruct (dict_get (items_db st) item_id); [|done].
    simpl. split; [done | by apply dict_del_keys_NoDup].
  - split; apply NoDup_nil_2.
Qed.

Lemma run_keys_NoDup rs :
  NoDup (dict_keys (users_db (run EmailStr init rs))) /\
  NoDup (dict_keys (items_db (run EmailStr init rs))).
Proof.
  assert (H : forall st,
             NoDup (dict_keys (users_db st)) /\ NoDup (dict_keys (items_db st)) ->
             NoDup (dict_keys (users_db (run EmailStr st rs))) /\
             NoDup (dict_keys (items_db (run EmailStr st rs)))).
  { induction rs as [|r rs IH]; intros st Hst; [done|].
    simpl. apply IH. by apply handle_keys_NoDup. }
  apply H. split; apply NoDup_nil_2.
Qed.

(** A request keeps every stored record under its own identifier. *)
Lemma handle_keyed st r : keyed st -> keyed (handle EmailStr st r).
Proof.
  intros [Hu Hi]. destruct r; simpl; try done.
  - unfold POST_users.
    destruct (User_validate EmailStr body) as [u|] eqn:Hv; [|done].
    unfold keyed, user_at, item_at. simpl. split; intros k l H.
    + apply dict_get_set_Some in H as [[-> ->]|[_ H]].
      * rewrite lookup_total_insert_eq. simpl. split; [lia|]. split; eauto.
      * destruct (Hu k l H) as (Hlt & Hid & Hc).
        rewrite lookup_total_insert_ne by lia. split; [lia | done].
    + destruct (Hi k l H) as (Hlt & Hid & Hc). split; [lia | done].
  - unfold PUT_user.
    destruct (UserUpdate_validate EmailStr body) as [upd|] eqn:Hv; [|done].
    unfold update_user.
    destruct (dict_get (users_db st) user_id) as [l0|] eqn:Hl; [|done].
    rewrite (dict_set_same _ _ _ Hl).
    unfold keyed, user_at, item_at. simpl. split; intros k l H.
    + destruct (Hu k l H) as (Hlt & Hid & Hc).
      destruct (decide (l = l0)) as [->|Hne].
      * rewrite lookup_total_insert_eq. by simpl.
      * by rewrite lookup_total_insert_ne.
    + by apply Hi.
  - unfold delete_user.
    destruct (dict_get (users_db st) user_id) as [l0|] eqn:Hl; [|done].
    unfold keyed, user_at, item_at. simpl. split; intros k l H.
    + apply dict_get_del_Some in H. by apply Hu.
    + by apply Hi.
  - unfold POST_items.
    destruct (Item_validate body) as [i|] eqn:Hv; [|done].
    unfold keyed, user_at, item_at. simpl. split; intros k l H.
    + destruct (Hu k l H) as (Hlt & Hid & Hc). split; [lia | done].
    + apply dict_get_set_Some in H as [[-> ->]|[_ H]].
      * rewrite lookup_total_insert_eq. simpl. split; [lia|]. split; eauto.
      * destruct (Hi k l H) as (Hlt & Hid & Hc).
        rewrite lookup_total_insert_ne by lia. split; [lia | done].
  - unfold PUT_item.
    destruct (ItemUpdate_validate body) as [upd|] eqn:Hv; [|done].
    unfold update_item.
    destruct (dict_get (items_db st) item_id) as [l0|] eqn:Hl; [|done].
    rewrite (dict_set_same _ _ _ Hl).
    unfold keyed, user_at, item_at. simpl. split; intros k l H.
    + by apply Hu.
    + destruct (Hi k l H) as (Hlt & Hid & Hc).
      destruct (decide (l = l0)) as [->|Hne].
      * rewrite lookup_total_insert_eq. by simpl.
      * by rewrite lookup_total_insert_ne.
  - unfold delete_item.
    destruct (dict_get (items_db st) item_id) as [l0|] eqn:Hl; [|done].
    unfold keyed, user_at, item_at. simpl. split; intros k l H.
    + by apply Hu.
    + apply dict_get_del_Some in H. by apply Hi.
Qed.

(** In every store that a run of requests reaches from the start of the
    process, a record that [get] finds carries the identifier it was asked
    for and a creation timestamp, whatever updates (with null members or
    not), deletions and resets the run contains. *)
Theorem stored_records_carry_their_key (rs : list request) :
  let st := run EmailStr init rs in
  (forall id l, get_user st id = Ok l ->
     User.id (user_at st l) = Some id /\
     is_Some (User.created_at (user_at st l))) /\
  (forall id l, get_item st id = Ok l ->
     Item.id (item_at st l) = Some id /\
     is_Some (Item.created_at (item_at st l))).
Proof.
  assert (H : forall st, keyed st -> keyed (run EmailStr st rs)).
  { induction rs as [|r rs IH]; intros st Hst; [done|].
    simpl. apply IH. by apply handle_keyed. }
  assert (Hinit : keyed init) by (by split).
  intros st. destruct (H init Hinit) as [Hu Hi]. fold st in Hu, Hi.
  split; intros id l Hget.
  - unfold get_user in Hget.
    destruct (dict_get (users_db st) id) as [l0|] eqn:E; [|done].
    injection Hget as ->. by destruct (Hu id l E) as (_ & ? & ?).
  - unfold get_item in Hget.
    destruct (dict_get (items_db st) id) as [l0|] eqn:E; [|done].
    injection Hget as ->. by destruct (Hi id l E) as (_ & ? & ?).
Qed.

Lemma run_keyed rs : keyed (run EmailStr init rs).
Proof.
  assert (H : forall st, keyed st -> keyed (run EmailStr st rs)).
  { induction rs as [|r rs IH]; intros st Hst; [done|].
    simpl. apply IH. by apply handle_keyed. }
  apply H. by split.
Qed.

End reachable.

(** ** Create, update and delete on a reachable store *)

Section frames.
Variable EmailStr : string -> option string.
Variable isoformat : datetime -> string.

(** In a keyed store two identifiers never share an object. *)
Lemma keyed_users_apart st k k' l :
  keyed st -> dict_get (users_db st) k = Some l ->
  dict_get (users_db st) k' = Some l -> k = k'.
Proof.
  intros [Hu _] Hk Hk'. destruct (Hu k l Hk) as (_ & Hid & _).
  destruct (Hu k' l Hk') as (_ & Hid' & _). congruence.
Qed.

Lemma keyed_items_apart st k k' l :
  keyed st -> dict_get (items_db st) k = Some l ->
  dict_get (items_db st) k' = Some l -> k = k'.
Proof.
  intros [_ Hi] Hk Hk'. destruct (Hi k l Hk) as (_ & Hid & _).
  destruct (Hi k' l Hk') as (_ & Hid' & _). congruence.
Qed.

(** An update of one identifier, accepted or not, leaves every other
    identifier of a reachable store with the record it had: the same
    object, with the same members. Users and items do not touch each
    other either. *)
Theorem update_leaves_other_records (rs : list request) :
  let st := run EmailStr init rs in
  (forall id body id' l',
     id' <> id -> get_user st id' = Ok l' ->
     let st' := snd (PUT_user EmailStr st id body) in
     get_user st' id' = Ok l' /\ user_at st' l' = user_at st l' /\
     items_db st' = items_db st /\ item_objs st' = item_objs st) /\
  (forall id body id' l',
     id' <> id -> get_item st id' = Ok l' ->
     let st' := snd (PUT_item st id body) in
     get_item st' id' = Ok l' /\ item_at st' l' = item_at st l' /\
     users_db st' = users_db st /\ user_objs st' = user_objs st).
Proof.
  intros st. pose proof (run_keyed EmailStr rs) as Hk. fold st in Hk.
  split; intros id body id' l' Hne Hget st'; subst st'.
  - unfold get_user in Hget.
    destruct (dict_get (users_db st) id') as [l0|] eqn:E'; [|done].
    injection Hget as ->. unfold PUT_user.
    destruct (UserUpdate_validate EmailStr body) as [upd|];
      [|simpl; unfold get_user; by rewrite E'].
    unfold update_user.
    destruct (dict_get (users_db st) id) as [l|] eqn:El;
      [|simpl; unfold get_user; by rewrite E'].
    rewrite (dict_set_same _ _ _ El). unfold get_user, user_at. simpl.
    rewrite E'. split; [done|]. split; [|done].
    rewrite lookup_total_insert_ne; [done|].
    intros ->. apply Hne. by eapply keyed_users_apart.
  - unfold get_item in Hget.
    destruct (dict_get (items_db st) id') as [l0|] eqn:E'; [|done].
    injection Hget as ->. unfold PUT_item.
    destruct (ItemUpdate_validate body) as [upd|];
      [|simpl; unfold get_item; by rewrite E'].
    unfold update_item.
    destruct (dict_get (items_db st) id) as [l|] eqn:El;
      [|simpl; unfold get_item; by rewrite E'].
    rewrite (dict_set_same _ _ _ El). unfold get_item, item_at. simpl.
    rewrite E'. split; [done|]. split; [|done].
    rewrite lookup_total_insert_ne; [done|].
    intros ->. apply Hne. by eapply keyed_items_apart.
Qed.

Lemma dict_del_absent {V : Type} (d : list (string * V)) k :
  k ∉ dict_keys d -> dict_del d k = d.
Proof.
  induction d as [|[k0 v0] d IH]; simpl; [done|].
  intros Hnot. apply not_elem_of_cons in Hnot as [Hne Hnot].
  destruct (String.eqb_spec k k0) as [->|_]; [done|]. simpl.
  f_equal. by apply IH.
Qed.

(** Deleting a key that is stored makes the dictionary one shorter. *)
Lemma dict_del_length {V : Type} (d : list (string * V)) k v :
  NoDup (dict_keys d) -> dict_get d k = Some v ->
  len (dict_del d k) = len d - 1.
Proof.
  unfold len. induction d as [|[k0 v0] d IH]; simpl; [done|].
  intros Hnd. apply NoDup_cons in Hnd as [Hnot Hnd].
  destruct (String.eqb_spec k k0) as [->|Hne]; simpl.
  - intros _. rewrite dict_del_absent by done. lia.
  - intros H. specialize (IH Hnd H). lia.
Qed.

(** [POST /users] on a reachable store, with a body that passes its schema:
    [get_user] on the new identifier finds the new record, which has the
    members the body was parsed to; every other identifier answers as
    before, with the same record; the items are untouched; and when the
    identifier was not stored, the record comes last in the listing and
    the health check counts one user more. *)
Theorem create_user_round_trip (rs : list request) (body : UserBody.t)
    (uuid : string) (now : datetime) (u : User.t) :
  let st := run EmailStr init rs in
  User_validate EmailStr body = Some u ->
  exists l st',
    POST_users EmailStr st body uuid now = (Ok l, st') /\
    get_user st' uuid = Ok l /\
    user_at st' l = User.mk (Some uuid) (User.name u) (User.email u)
                      (User.age u) (Some now) /\
    (forall k, k <> uuid -> get_user st' k = get_user st k) /\
    (forall k l0, get_user st k = Ok l0 -> user_at st' l0 = user_at st l0) /\
    items_db st' = items_db st /\ item_objs st' = item_objs st /\
    (get_user st uuid = NotFound ->
       dict_values (users_db st')
       = (dict_values (users_db st) ++ [l])%list /\
       forall t, Health.users_count (health_check isoformat st' t)
                 = Health.users_count (health_check isoformat st t) + 1).
Proof.
  intros st Hv. pose proof (run_keyed EmailStr rs) as [Hu _]. fold st in Hu.
  destruct (POST_users_Ok EmailStr st body uuid now u Hv)
    as (l & st' & Hpost & Hat & Hget).
  exists l, st'. split; [done|]. split; [done|]. split; [done|].
  unfold POST_users in Hpost. rewrite Hv in Hpost. simpl in Hpost.
  injection Hpost as <- <-. unfold get_user, user_at. simpl.
  split; [|split; [|split; [done|split; [done|]]]].
  - intros k Hne. by rewrite dict_get_set_ne.
  - intros k l0 Hk. destruct (dict_get (users_db st) k) as [l1|] eqn:E; [|done].
    injection Hk as ->. destruct (Hu k l0 E) as (Hlt & _).
    rewrite lookup_total_insert_ne; [done | lia].
  - intros Hnew. destruct (dict_get (users_db st) uuid) eqn:E; [done|].
    rewrite dict_set_new by done. split.
    + unfold dict_values. by rewrite map_app.
    + intros t. unfold len. rewrite length_app. simpl. lia.
Qed.

(** [POST /items] on a reachable store: the same, and a body that leaves
    [quantity] out gives a record with quantity 1. *)
Theorem create_item_round_trip (rs : list request) (body : ItemBody.t)
    (uuid : string) (now : datetime) (i : Item.t) :
  let st := run EmailStr init rs in
  Item_validate body = Some i ->
  exists l st',
    POST_items st body uuid now = (Ok l, st') /\
    get_item st' uuid = Ok l /\
    item_at st' l = Item.mk (Some uuid) (Item.title i) (Item.description i)
                      (Item.price i) (Item.quantity i) (Some now) /\
    (ItemBody.quantity body = Absent -> Item.quantity (item_at st' l) = Some 1) /\
    (forall k, k <> uuid -> get_item st' k = get_item st k) /\
    (forall k l0, get_item st k = Ok l0 -> item_at st' l0 = item_at st l0) /\
    users_db st' = users_db st /\ user_objs st' = user_objs st /\
    (get_item st uuid = NotFound ->
       dict_values (items_db st')
       = (dict_values (items_db st) ++ [l])%list /\
       forall t, Health.items_count (health_check isoformat st' t)
                 = Health.items_count (health_check isoformat st t) + 1).
Proof.
  intros st Hv. pose proof (run_keyed EmailStr rs) as [_ Hi]. fold st in Hi.
  destruct (POST_items_Ok st body uuid now i Hv)
    as (l & st' & Hpost & Hat & Hget).
  exists l, st'. split; [done|]. split; [done|]. split; [done|].
  split.
  { intros Hq. rewrite Hat. simpl. unfold Item_validate in Hv.
    rewrite Hq in Hv. simpl in Hv.
    destruct (required _ (ItemBody.title body)); [|done].
    destruct (required _ (ItemBody.price body)); [|done].
    by injection Hv as <-. }
  unfold POST_items in Hpost. rewrite Hv in Hpost. simpl in Hpost.
  injection Hpost as <- <-. unfold get_item, item_at. simpl.
  split; [|split; [|split; [done|split; [done|]]]].
  - intros k Hne. by rewrite dict_get_set_ne.
  - intros k l0 Hk. destruct (dict_get (items_db st) k) as [l1|] eqn:E; [|done].
    injection Hk as ->. destruct (Hi k l0 E) as (Hlt & _).
    rewrite lookup_total_insert_ne; [done | lia].
  - intros Hnew. destruct (dict_get (items_db st) uuid) eqn:E; [done|].
    rewrite dict_set_new by done. split.
    + unfold dict_values. by rewrite map_app.
    + intros t. unfold len. rewrite length_app. simpl. lia.
Qed.

(** The handlers make no check for an identifier that is already stored:
    a create whose [uuid4()] answers a stored identifier puts the new
    record in the place of the old one. The listing keeps its length and
    the order of its identifiers; [get] on the identifier finds the new
    object; the old object is as it was, but no identifier leads to it
    any more. *)
Theorem create_under_stored_id_replaces (rs : list request)
    (body : UserBody.t) (uuid : string) (now : datetime) (u : User.t)
    (old : loc) :
  let st := run EmailStr init rs in
  User_validate EmailStr body = Some u ->
  get_user st uuid = Ok old ->
  exists l st',
    POST_users EmailStr st body uuid now = (Ok l, st') /\
    get_user st' uuid = Ok l /\ l <> old /\
    dict_keys (users_db st') = dict_keys (users_db st) /\
    len (users_db st') = len (users_db st) /\
    user_at st' old = user_at st old /\
    (forall k, get_user st' k <> Ok old).
Proof.
  intros st Hv Hold. pose proof (run_keyed EmailStr rs) as Hk. fold st in Hk.
  unfold get_user in Hold.
  destruct (dict_get (users_db st) uuid) as [l0|] eqn:E; [|done].
  injection Hold as ->. destruct Hk as [Hu Hi].
  destruct (Hu uuid old E) as (Hlt & Hid & _).
  unfold POST_users. rewrite Hv. simpl. do 2 eexists. split; [done|].
  unfold get_user, user_at. simpl. rewrite dict_get_set_eq.
  split; [done|]. split; [lia|].
  split; [by rewrite (dict_set_stored_keys _ _ _ _ E)|].
  split.
  { unfold len. f_equal.
    pose proof (f_equal length (dict_set_stored_keys (users_db st) uuid
                                  (next_obj st) old E)) as Hlen.
    unfold dict_keys in Hlen. by rewrite !length_map in Hlen. }
  split; [rewrite lookup_total_insert_ne; [done | lia]|].
  intros k. destruct (String.eqb_spec uuid k) as [<-|Hne].
  - rewrite dict_get_set_eq. intros [= ?]. lia.
  - rewrite dict_get_set_ne by done.
    destruct (dict_get (users_db st) k) as [l1|] eqn:Ek; [|done].
    intros [= ->]. apply Hne.
    by apply (keyed_users_apart st uuid k old (conj Hu Hi)).
Qed.

(** [DELETE /users/{user_id}] on a stored identifier of a reachable store
    takes out that identifier and nothing else: every other identifier
    answers as before, no object changes, the listing keeps the order of
    the records that remain, and the health check counts one user less. *)
Theorem delete_user_removes_one (rs : list request) (id : string) (l : loc) :
  let st := run EmailStr init rs in
  get_user st id = Ok l ->
  exists st',
    delete_user st id = (Ok tt, st') /\
    get_user st' id = NotFound /\
    (forall k, k <> id -> get_user st' k = get_user st k) /\
    user_objs st' = user_objs st /\
    sublist (dict_values (users_db st')) (dict_values (users_db st)) /\
    (forall t, Health.users_count (health_check isoformat st' t)
               = Health.users_count (health_check isoformat st t) - 1) /\
    items_db st' = items_db st /\ item_objs st' = item_objs st.
Proof.
  intros st Hget. pose proof (run_keys_NoDup EmailStr rs) as [Hnd _].
  fold st in Hnd. unfold get_user in Hget.
  destruct (dict_get (users_db st) id) as [l0|] eqn:E; [|done].
  injection Hget as ->. unfold delete_user. rewrite E. eexists.
  split; [done|]. unfold get_user. simpl.
  split; [by rewrite dict_get_del_eq|].
  split; [intros k Hne; by rewrite dict_get_del_ne|].
  split; [done|]. split; [apply dict_del_order|].
  split; [|done]. intros t. by apply (dict_del_length _ _ l).
Qed.

(** The same for [DELETE /items/{item_id}]. *)
Theorem delete_item_removes_one (rs : list request) (id : string) (l : loc) :
  let st := run EmailStr init rs in
  get_item st id = Ok l ->
  exists st',
    delete_item st id = (Ok tt, st') /\
    get_item st' id = NotFound /\
    (forall k, k <> id -> get_item st' k = get_item st k) /\
    item_objs st' = item_objs st /\
    sublist (dict_values (items_db st')) (dict_values (items_db st)) /\
    (forall t, Health.items_count (health_check isoformat st' t)
               = Health.items_count (health_check isoformat st t) - 1) /\
    users_db st' = users_db st /\ user_objs st' = user_objs st.
Proof.
  intros st Hget. pose proof (run_keys_NoDup EmailStr rs) as [_ Hnd].
  fold st in Hnd. unfold get_item in Hget.
  destruct (dict_get (items_db st) id) as [l0|] eqn:E; [|done].
  injection Hget as ->. unfold delete_item. rewrite E. eexists.
  split; [done|]. unfold get_item. simpl.
  split; [by rewrite dict_get_del_eq|].
  split; [intros k Hne; by rewrite dict_get_del_ne|].
  split; [done|]. split; [apply dict_del_order|].
  split; [|done]. intros t. by apply (dict_del_length _ _ l).
Qed.

End frames.

Lemma update_leaves_other_records_witness :
  let st := run sample_EmailStr init two_users_run in
  let st' := snd (PUT_user sample_EmailStr st "u-1" null_name) in
  get_user st' "u-2" = Ok 1%nat /\ user_at st' 1%nat = user_at st 1%nat.
Proof.
  intros st st'.
  destruct (update_leaves_other_records sample_EmailStr two_users_run)
    as [Hu _].
  destruct (Hu "u-1" null_name "u-2" 1%nat) as (H1 & H2 & _);
    [discriminate | reflexivity |].
  by split.
Defined.

Lemma create_user_round_trip_witness :
  exists l st',
    POST_users sample_EmailStr (run sample_EmailStr init setup_run)
      sample_user_body "u-9" 5 = (Ok l, st') /\
    get_user st' "u-9" = Ok l /\
    User.name (user_at st' l) = Some "Ramesh Kumar Sah" /\
    get_user st' "u-1" = Ok 0%nat.
Proof.
  destruct (create_user_round_trip sample_EmailStr sample_isoformat setup_run
              sample_user_body "u-9" 5 _ eq_refl)
    as (l & st' & H1 & H2 & H3 & H4 & _).
  exists l, st'. split; [done|]. split; [done|]. split.
  - by rewrite H3.
  - rewrite H4; [reflexivity | discriminate].
Defined.

Lemma create_item_round_trip_witness :
  exists l st',
    POST_items (run sample_EmailStr init setup_run)
      (ItemBody.mk Absent (Given (Some "Gadget")) Absent
         (Given (Some 2.5%float)) Absent Absent) "i-9" 5 = (Ok l, st') /\
    get_item st' "i-9" = Ok l /\
    Item.quantity (item_at st' l) = Some 1.
Proof.
  destruct (create_item_round_trip sample_EmailStr sample_isoformat setup_run
              (ItemBody.mk Absent (Given (Some "Gadget")) Absent
                 (Given (Some 2.5%float)) Absent Absent) "i-9" 5 _ eq_refl)
    as (l & st' & H1 & H2 & _ & H3 & _).
  exists l, st'. split; [done|]. split; [done|]. by apply H3.
Defined.

Lemma create_under_stored_id_replaces_witness :
  exists l st',
    POST_users sample_EmailStr (run sample_EmailStr init two_users_run)
      sample_user_body "u-1" 5 = (Ok l, st') /\
    get_user st' "u-1" = Ok l /\ l <> 0%nat /\
    len (users_db st') = 2.
Proof.
  destruct (create_under_stored_id_replaces sample_EmailStr two_users_run
              sample_user_body "u-1" 5 _ 0%nat eq_refl eq_refl)
    as (l & st' & H1 & H2 & H3 & _ & H4 & _).
  exists l, st'. split; [done|]. split; [done|]. split; [done|].
  by rewrite H4.
Defined.

Lemma delete_user_removes_one_witness :
  exists st',
    delete_user (run sample_EmailStr init two_users_run) "u-1" = (Ok tt, st') /\
    get_user st' "u-1" = NotFound /\ get_user st' "u-2" = Ok 1%nat /\
    Health.users_count (health_check sample_isoformat st' 0) = 1.
Proof.
  destruct (delete_user_removes_one sample_EmailStr sample_isoformat
              two_users_run "u-1" 0%nat eq_refl)
    as (st' & H1 & H2 & H3 & _ & _ & H4 & _).
  exists st'. split; [done|]. split; [done|]. split.
  - rewrite H3; [reflexivity | discriminate].
  - by rewrite H4.
Defined.

Lemma delete_item_removes_one_witness :
  exists st',
    delete_item (run sample_EmailStr init setup_run) "i-1" = (Ok tt, st') /\
    get_item st' "i-1" = NotFound /\
    Health.items_count (health_check sample_isoformat st' 0) = 0.
Proof.
  destruct (delete_item_removes_one sample_EmailStr sample_isoformat
              setup_run "i-1" 1%nat eq_refl)
    as (st' & H1 & H2 & _ & _ & _ & H4 & _).
  exists st'. split; [done|]. split; [done|]. by rewrite H4.
Defined.

(** ** Raising comprehensions *)

Lemma comprehension_None {A : Type} (test : A -> option bool) (l : list A) :
  comprehension test l = None <-> exists x, In x l /\ test x = None.
Proof.
  induction l as [|x l IH]; simpl.
  - split; [done | by intros (x & [] & _)].
  - destruct (test x) as [b|] eqn:E.
    + destruct (comprehension test l) as [r|].
      * split; [done|]. intros (y & [<-|Hy] & Hn); [congruence|].
        enough (@None (list A) = Some r) by done. symmetry. apply IH. eauto.
      * split; [|done]. intros _. destruct (proj1 IH eq_refl) as (y & Hy & Hn).
        eauto.
    + split; [eauto | done].
Qed.

Lemma comprehension_In {A : Type} (test : A -> option bool) (l r : list A) :
  comprehension test l = Some r -> forall x, In x r -> In x l.
Proof.
  revert r. induction l as [|x l IH]; simpl; intros r.
  - by intros [= <-].
  - destruct (test x) as [b|]; [|done].
    destruct (comprehension test l) as [r'|]; [|done].
    intros [= <-] y Hy. specialize (IH r' eq_refl).
    destruct b; [destruct Hy as [->|Hy]|]; [by left | right; auto..].
Qed.

Lemma comprehension_ext {A : Type} (f g : A -> option bool) (l : list A) :
  (forall x, f x = g x) -> comprehension f l = comprehension g l.
Proof.
  intros H. induction l as [|x l IH]; simpl; [done|]. by rewrite H, IH.
Qed.

(** [search_users_by_email] raises exactly when some stored user has no
    email, whatever the search string is; it never answers NotFound or a
    validation error. *)
Theorem search_raises_iff (lower : string -> string) (st : state)
    (q : string) :
  (search_users_by_email lower st q = ServerError <->
     exists l, In l (dict_values (users_db st)) /\
               User.email (user_at st l) = None) /\
  search_users_by_email lower st q <> NotFound /\
  search_users_by_email lower st q <> ValidationError.
Proof.
  unfold search_users_by_email.
  pose proof (comprehension_None (email_matches lower st q)
                (dict_values (users_db st))) as H.
  assert (Hm : forall l, email_matches lower st q l = None <->
                         User.email (user_at st l) = None).
  { intros l. unfold email_matches. by destruct (User.email (user_at st l)). }
  destruct (comprehension _ _) as [r|]; (split; [|done]).
  - split; [done|]. intros (l & Hl & Hn).
    enough (@None (list loc) = Some r) by done. symmetry. apply H.
    exists l. by rewrite Hm.
  - split; [|done]. intros _. destruct (proj1 H eq_refl) as (l & Hl & Hn).
    exists l. by rewrite <- Hm.
Qed.

(** [get_all_items] raises exactly when a price bound is supplied and some
    stored item has no price, whatever the window is; without a bound it
    always answers. *)
Theorem listing_raises_iff (st : state) (skip limit : Z)
    (min_price max_price : option float) :
  (get_all_items st skip limit min_price max_price = ServerError <->
     (is_Some min_price \/ is_Some max_price) /\
     exists l, In l (dict_values (items_db st)) /\
               Item.price (item_at st l) = None) /\
  get_all_items st skip limit None None
  = Ok (py_slice (dict_values (items_db st)) skip (skip + limit)).
Proof.
  split; [|done].
  assert (Hge : forall m l, price_ge st m l = None <->
                            Item.price (item_at st l) = None).
  { intros m l. unfold price_ge. by destruct (Item.price (item_at st l)). }
  assert (Hle : forall m l, price_le st m l = None <->
                            Item.price (item_at st l) = None).
  { intros m l. unfold price_le. by destruct (Item.price (item_at st l)). }
  unfold get_all_items.
  destruct min_price as [m|]; simpl.
  - pose proof (comprehension_None (price_ge st m)
                  (dict_values (items_db st))) as H1.
    destruct (comprehension (price_ge st m) _) as [l1|] eqn:E1.
    + assert (Hall : forall l, In l (dict_values (items_db st)) ->
                               Item.price (item_at st l) <> None).
      { intros l Hl Hn. enough (@None (list loc) = Some l1) by done.
        symmetry. apply H1. exists l. by rewrite Hge. }
      destruct max_price as [M|]; simpl.
      * pose proof (comprehension_None (price_le st M) l1) as H2.
        destruct (comprehension (price_le st M) l1) as [l2|].
        -- split; [done|]. intros (_ & l & Hl & Hn). by destruct (Hall l Hl).
        -- split; [|done]. intros _. split; [left; eauto|].
           destruct (proj1 H2 eq_refl) as (l & Hl & Hn).
           exists l. split; [by eapply comprehension_In | by apply Hle in Hn].
      * split; [done|]. intros (_ & l & Hl & Hn). by destruct (Hall l Hl).
    + split; [|done]. intros _. split; [left; eauto|].
      destruct (proj1 H1 eq_refl) as (l & Hl & Hn).
      exists l. split; [done | by apply Hge in Hn].
  - destruct max_price as [M|]; simpl.
    + pose proof (comprehension_None (price_le st M)
                    (dict_values (items_db st))) as H2.
      destruct (comprehension (price_le st M) _) as [l2|].
      * split; [done|]. intros (_ & l & Hl & Hn).
        enough (@None (list loc) = Some l2) by done.
        symmetry. apply H2. exists l. by rewrite Hle.
      * split; [|done]. intros _. split; [right; eauto|].
        destruct (proj1 H2 eq_refl) as (l & Hl & Hn).
        exists l. split; [done | by apply Hle in Hn].
    + split; [done|]. intros ([[? [=]]|[? [=]]] & _).
Qed.

(** ** Search strings *)

(** The search looks at the search string only through [str.lower]: two
    search strings with the same lower-case form, such as two spellings
    that differ in the case of their letters, get the same answer. *)
Theorem search_ignores_query_case (lower : string -> string) (st : state)
    (q q' : string) :
  lower q = lower q' ->
  search_users_by_email lower st q = search_users_by_email lower st q'.
Proof.
  intros H. unfold search_users_by_email.
  rewrite (comprehension_ext (email_matches lower st q)
             (email_matches lower st q')); [done|].
  intros l. unfold email_matches. by rewrite H.
Qed.

Lemma search_ignores_query_case_witness :
  search_users_by_email sample_lower crowd_state "TEST.org"
  = search_users_by_email sample_lower crowd_state "test.ORG".
Proof.
  apply search_ignores_query_case. reflexivity.
Defined.

Lemma str_in_empty (s : string) : str_in "" s = true.
Proof. by destruct s. Qed.

(** The empty search string matches every email: when every stored user has
    an email, the search answers the whole collection, in its order.
    ([str.lower] gives the empty string for the empty string.) *)
Theorem search_empty_string_finds_all (lower : string -> string)
    (st : state) :
  lower "" = "" ->
  emails_set st ->
  search_users_by_email lower st "" = Ok (dict_values (users_db st)).
Proof.
  intros Hl He. unfold search_users_by_email.
  rewrite (comprehension_filter _ (fun _ => true)).
  - f_equal. apply forallb_filter_id. by apply forallb_forall.
  - intros l Hin. destruct (He l Hin) as [e Hle]. unfold email_matches.
    rewrite Hle, Hl. by rewrite str_in_empty.
Qed.

Lemma search_empty_string_finds_all_witness :
  search_users_by_email sample_lower crowd_state "" = Ok [0%nat; 1%nat].
Proof.
  apply (search_empty_string_finds_all sample_lower crowd_state eq_refl
           crowd_state_emails_set).
Defined.

(** ** Reset, health check and statistics *)

Section reports.
Variable isoformat : datetime -> string.
Variable float_of_int : Z -> option float.
Variable int_truediv : Z -> Z -> float.
Variable fsum : list float -> float.
Variable round2 : float -> float.

Lemma py_slice_nil {A : Type} (a b : Z) : py_slice (@nil A) a b = [].
Proof. unfold py_slice. by rewrite skipn_nil, firstn_nil. Qed.

Lemma generate_None {A B : Type} (f : A -> option B) (l : list A) (x : A) :
  In x l -> f x = None -> generate f l = None.
Proof.
  induction l as [|y l IH]; simpl; [done|].
  intros [->|Hx] Hn; [by rewrite Hn|].
  destruct (f y); [|done]. by rewrite IH.
Qed.

(** After [reset_database] both collections are empty for every reader:
    every identifier is NotFound, every listing and every search answers
    the empty list, and the health check and the statistics count nothing,
    with a total value and an average price of 0. The objects that existed
    are not touched, and identities are not handed out again. *)
Theorem reset_empties_both (st : state) :
  let st' := reset_database st in
  (forall id, get_user st' id = NotFound /\ get_item st' id = NotFound) /\
  (forall skip limit, get_all_users st' skip limit = []) /\
  (forall skip limit min_price max_price,
     get_all_items st' skip limit min_price max_price = Ok []) /\
  (forall lower q, search_users_by_email lower st' q = Ok []) /\
  (forall t, health_check isoformat st' t
             = Health.mk "healthy" (isoformat t) 0 0) /\
  (forall t, get_statistics isoformat float_of_int int_truediv fsum round2 st' t
             = Ok (Stats.mk 0 0 (Int 0) (Int 0) (isoformat t))) /\
  user_objs st' = user_objs st /\ item_objs st' = item_objs st /\
  next_obj st' = next_obj st.
Proof.
  intros st'. split; [done|]. split; [intros; apply py_slice_nil|].
  split; [|done]. intros skip limit min_price max_price.
  unfold get_all_items. simpl.
  destruct min_price, max_price; simpl; by rewrite py_slice_nil.
Qed.

(** The statistics at the edges. With no item stored, whatever users there
    are, the total value and the average price are the integer 0 and
    nothing is divided. Whenever the statistics answer, their two counts
    are those of the health check. And an item without a price or without
    a quantity makes them raise. *)
Theorem statistics_edges (st : state) (t : datetime) :
  let stats := get_statistics isoformat float_of_int int_truediv fsum round2 in
  (items_db st = [] ->
     stats st t = Ok (Stats.mk (len (users_db st)) 0 (Int 0) (Int 0)
                        (isoformat t))) /\
  (forall s, stats st t = Ok s ->
     Stats.users_total s = Health.users_count (health_check isoformat st t) /\
     Stats.items_total s = Health.items_count (health_check isoformat st t) /\
     Stats.timestamp s = Health.timestamp (health_check isoformat st t)) /\
  (forall l, In l (dict_values (items_db st)) ->
     Item.price (item_at st l) = None \/ Item.quantity (item_at st l) = None ->
     stats st t = ServerError) /\
  stats st t <> NotFound /\ stats st t <> ValidationError.
Proof.
  intros stats. subst stats. unfold get_statistics.
  split; [by intros ->|].
  destruct (generate (price_times_quantity float_of_int st) _)
    as [values|] eqn:Ev.
  - destruct (0 <? len (items_db st)).
    + destruct (generate (fun l => Item.price (item_at st l)) _) as [prices|].
      * destruct (truediv float_of_int int_truediv (py_sum fsum prices) _).
        -- split; [by intros s [= <-]|]. split; [|done].
           intros l Hl Hn. enough (@None (list float) = Some values) by done.
           rewrite <- Ev. symmetry. apply (generate_None _ _ l Hl).
           unfold price_times_quantity.
           destruct Hn as [-> | ->]; [done|].
           by destruct (Item.price (item_at st l)).
        -- done.
      * done.
    + split; [by intros s [= <-]|]. split; [|done].
      intros l Hl Hn. enough (@None (list float) = Some values) by done.
      rewrite <- Ev. symmetry. apply (generate_None _ _ l Hl).
      unfold price_times_quantity.
      destruct Hn as [-> | ->]; [done|].
      by destruct (Item.price (item_at st l)).
  - done.
Qed.

End reports.

Lemma statistics_edges_witness :
  let st := run sample_EmailStr init two_users_run in
  get_statistics sample_isoformat (fun _ => None) (fun _ _ => 0%float)
    (fun _ => 0%float) (fun x => x) st 0
  = Ok (Stats.mk 2 0 (Int 0) (Int 0) "1970-01-01T00:00:00").
Proof.
  intros st.
  destruct (statistics_edges sample_isoformat (fun _ => None)
              (fun _ _ => 0%float) (fun _ => 0%float) (fun x => x) st 0)
    as (H & _).
  apply H. reflexivity.
Defined.

(** ** Updates one after the other *)

Lemma setattr_overlay {A : Type} (f1 f2 : field A) (v : option A) :
  setattr f2 (setattr f1 v) = setattr (overlay f1 f2) v.
Proof. by destruct f2. Qed.

Lemma overlay_same {A : Type} (f : field A) : overlay f f = f.
Proof. by destruct f. Qed.

(** Two updates of the same identifier, one after the other, answer and
    leave the store as the one update does whose payload has every member
    that either payload sets, with the value of the later one where both
    set it. So an update that is sent twice does what it does once. This
    holds for users and for items, stored or not. *)
Theorem updates_compose (st : state) (id : string) :
  (forall upd1 upd2,
     update_user (snd (update_user st id upd1)) id upd2
     = update_user st id (UserUpdate_then upd1 upd2)) /\
  (forall upd,
     update_user (snd (update_user st id upd)) id upd = update_user st id upd) /\
  (forall upd1 upd2,
     update_item (snd (update_item st id upd1)) id upd2
     = update_item st id (ItemUpdate_then upd1 upd2)) /\
  (forall upd,
     update_item (snd (update_item st id upd)) id upd = update_item st id upd).
Proof.
  assert (Hu : forall upd1 upd2,
            update_user (snd (update_user st id upd1)) id upd2
            = update_user st id (UserUpdate_then upd1 upd2)).
  { intros upd1 upd2. unfold update_user.
    destruct (dict_get (users_db st) id) as [l|] eqn:E; simpl; [|by rewrite E].
    rewrite dict_get_set_eq. unfold user_at. simpl.
    rewrite lookup_total_insert_eq, insert_insert_eq.
    rewrite (dict_set_same (dict_set _ _ _) id l) by apply dict_get_set_eq.
    do 3 f_equal. unfold User_setattrs, UserUpdate_then. simpl.
    by rewrite !setattr_overlay. }
  assert (Hi : forall upd1 upd2,
            update_item (snd (update_item st id upd1)) id upd2
            = update_item st id (ItemUpdate_then upd1 upd2)).
  { intros upd1 upd2. unfold update_item.
    destruct (dict_get (items_db st) id) as [l|] eqn:E; simpl; [|by rewrite E].
    rewrite dict_get_set_eq. unfold item_at. simpl.
    rewrite lookup_total_insert_eq, insert_insert_eq.
    rewrite (dict_set_same (dict_set _ _ _) id l) by apply dict_get_set_eq.
    do 3 f_equal. unfold Item_setattrs, ItemUpdate_then. simpl.
    by rewrite !setattr_overlay. }
  split; [exact Hu|]. split.
  - intros upd. rewrite Hu. f_equal. destruct upd. unfold UserUpdate_then.
    simpl. by rewrite !overlay_same.
  - split; [exact Hi|]. intros upd. rewrite Hi. f_equal. destruct upd.
    unfold ItemUpdate_then. simpl. by rewrite !overlay_same.
Qed.

(** ** Paging through a collection *)

Lemma flat_map_pages {A : Type} (l : list A) (limit : Z) (n : nat) :
  1 <= limit ->
  flat_map (fun i => py_slice l (Z.of_nat i * limit)
                       (Z.of_nat i * limit + limit)) (seq 0 n)
  = take (n * Z.to_nat limit) l.
Proof.
  intros Hl. induction n as [|n IH]; [done|].
  rewrite seq_S, flat_map_app, IH. simpl. rewrite app_nil_r.
  rewrite py_slice_window by lia.
  replace (Z.to_nat (Z.of_nat n * limit)) with (n * Z.to_nat limit)%nat by lia.
  rewrite take_take_drop. f_equal. lia.
Qed.

Lemma item_pages_take st limit min_price max_price fl n :
  1 <= limit -> filter_items st min_price max_price = Some fl ->
  forall first,
    item_pages st limit min_price max_price first n
    = Some (take (n * Z.to_nat limit) (drop (first * Z.to_nat limit) fl)).
Proof.
  intros Hl Hfl. induction n as [|n IH]; intros first; [done|].
  cbn [item_pages]. rewrite get_all_items_filter_items, Hfl, IH.
  f_equal. rewrite py_slice_window by lia.
  replace (Z.to_nat (Z.of_nat first * limit)) with (first * Z.to_nat limit)%nat
    by lia.
  replace (S first * Z.to_nat limit)%nat
    with (first * Z.to_nat limit + Z.to_nat limit)%nat by lia.
  by rewrite <- drop_drop, take_take_drop.
Qed.

(** Asking for the pages of size [limit] one after the other, with
    [skip = 0, limit, 2 * limit, ...], until [n * limit] reaches the size of
    the collection, gives every record of the collection exactly once and
    in its order: all users, and all items that the filter steps leave. *)
Theorem paging_covers_collection (st : state) (limit : Z) (n : nat) :
  1 <= limit ->
  (len (users_db st) <= Z.of_nat n * limit ->
     user_pages st limit n = dict_values (users_db st)) /\
  (forall min_price max_price fl,
     filter_items st min_price max_price = Some fl ->
     len fl <= Z.of_nat n * limit ->
     item_pages st limit min_price max_price 0 n = Some fl).
Proof.
  intros Hl. split.
  - intros Hn. unfold user_pages, get_all_users.
    rewrite flat_map_pages by done. apply take_ge.
    unfold len, dict_values in *. rewrite length_map. lia.
  - intros min_price max_price fl Hfl Hn.
    rewrite (item_pages_take _ _ _ _ fl) by done. simpl. rewrite drop_0.
    f_equal. apply take_ge. unfold len in Hn. lia.
Qed.

Lemma paging_covers_collection_witness :
  user_pages crowd_state 1 2 = [0%nat; 1%nat] /\
  item_pages shop_state 2 (Some 10%float) None 0 1 = Some [1%nat; 2%nat].
Proof.
  split.
  - apply (paging_covers_collection crowd_state 1 2); [lia|].
    vm_compute. discriminate.
  - destruct (paging_covers_collection shop_state 2 1) as [_ H]; [lia|].
    apply H; [vm_compute; reflexivity | vm_compute; discriminate].
Defined.

(** * Properties of the push script *)

Section push.
Import AutoPush.
Variable strip : string -> string.
Variable str_error : list string -> Z -> string.
Local Set Warnings "-clear-no-such-hyp".

(** Reading the message starts no command. *)
Lemma read_commit_message_message w m :
  message strip w = Some m ->
  exists t, read_commit_message strip w = (t, inr m) /\ commands t = [].
Proof.
  unfold message, read_commit_message.
  destruct (1 <? len (argv w)).
  - intros [= <-]. by exists [].
  - destruct (stdin w); [|done..]. intros [= <-]. by eexists.
Qed.

Lemma commands_app t1 t2 : commands (t1 ++ t2) = (commands t1 ++ commands t2)%list.
Proof. unfold commands. by rewrite flat_map_app. Qed.

(** The commands of a run with a message, and its ending. *)
Lemma main_with_message w m :
  message strip w = Some m -> m <> "" ->
  (commands (fst (main strip str_error w)), snd (main strip str_error w))
  = match git w git_add with
    | NotStarted => ([git_add], Uncaught "OSError")
    | Completed a _ =>
        if a =? 0 then
          match git w (git_commit m) with
          | NotStarted => ([git_add; git_commit m], Uncaught "OSError")
          | Completed c _ =>
              if c =? 0 then ([git_add; git_commit m; git_push], after_push w)
              else
                match git w git_status with
                | NotStarted =>
                    ([git_add; git_commit m; git_status], Uncaught "OSError")
                | Completed _ _ =>
                    ([git_add; git_commit m; git_status; git_push],
                     after_push w)
                end
          end
        else ([git_add], Exit 1)
    end.
Proof.
  intros Hm Hne. destruct (read_commit_message_message w m Hm) as (t & Hr & Ht).
  assert (He : String.eqb m "" = false) by (by apply String.eqb_neq).
  unfold main, main_body, after_push. rewrite Hr. cbn [bind]. rewrite He.
  unfold run_git_command, subprocess_run, git_add, git_commit, git_status,
    git_push.
  destruct (git w ["git"; "add"; "."]) as [a oa|]; cbn.
  2: { by rewrite commands_app, Ht. }
  destruct (a =? 0); cbn; [|by rewrite commands_app, Ht].
  destruct (git w ["git"; "commit"; "-m"; m]) as [c oc|]; cbn.
  2: { by rewrite commands_app, Ht. }
  destruct (c =? 0); cbn.
  - destruct (git w ["git"; "push"]) as [p op|]; cbn.
    + destruct (p =? 0); cbn; by rewrite commands_app, Ht.
    + by rewrite commands_app, Ht.
  - destruct (git w ["git"; "status"; "--porcelain"]) as [s os|]; cbn.
    2: { by rewrite commands_app, Ht. }
    destruct (String.eqb (strip os) "" && (c =? 1)); cbn.
    + destruct (git w ["git"; "push"]) as [p op|]; cbn.
      * destruct (p =? 0); cbn; by rewrite commands_app, Ht.
      * by rewrite commands_app, Ht.
    + destruct (git w ["git"; "push"]) as [p op|]; cbn.
      * destruct (p =? 0); cbn; by rewrite commands_app, Ht.
      * by rewrite commands_app, Ht.
Qed.

Lemma main_empty_message w :
  message strip w = Some "" ->
  commands (fst (main strip str_error w)) = [] /\
  snd (main strip str_error w) = Exit 1.
Proof.
  intros Hm. destruct (read_commit_message_message w "" Hm) as (t & Hr & Ht).
  unfold main, main_body. rewrite Hr. cbn. by rewrite commands_app, Ht.
Qed.

(** Without a commit message the script starts no command. An empty
    message, from the arguments or typed, ends it with status 1; Ctrl-C at
    the prompt ends it with status 0; the end of the input at the prompt is
    an exception that nothing catches. *)
Theorem no_message_no_command (w : world) :
  (message strip w = Some "" ->
     commands (fst (main strip str_error w)) = [] /\
     snd (main strip str_error w) = Exit 1) /\
  (len (argv w) <= 1 -> stdin w = KeyboardInterrupt ->
     commands (fst (main strip str_error w)) = [] /\
     snd (main strip str_error w) = Exit 0) /\
  (len (argv w) <= 1 -> stdin w = EOFError ->
     commands (fst (main strip str_error w)) = [] /\
     snd (main strip str_error w) = Uncaught "EOFError").
Proof.
  split; [|split].
  - apply main_empty_message.
  - intros Hlen Hs. unfold main, main_body, read_commit_message.
    replace (1 <? len (argv w)) with false by lia. by rewrite Hs.
  - intros Hlen Hs. unfold main, main_body, read_commit_message.
    replace (1 <? len (argv w)) with false by lia. by rewrite Hs.
Qed.

Ltac push_cases w m :=
  destruct (git w git_add) as [a ?|];
  [destruct (Z.eqb_spec a 0) as [->|];
   [destruct (git w (git_commit m)) as [c ?|];
    [destruct (Z.eqb_spec c 0) as [->|]; [|destruct (git w git_status)]|]|]|].

(** With a message, [git add .] is the first command of every run, and the
    commands of a run are some of add, commit (with the message as it is),
    status and push, in this order. [git push] is started exactly when the
    add returned 0, the commit could be started and, after a commit that
    did not return 0, the status could be started: no return code of the
    commit stops the push. [git status --porcelain] is started exactly
    after a commit that did not return 0. *)
Theorem push_follows_staging (w : world) (m : string) :
  message strip w = Some m -> m <> "" ->
  let cs := commands (fst (main strip str_error w)) in
  (exists rest, cs = git_add :: rest) /\
  sublist cs [git_add; git_commit m; git_status; git_push] /\
  (In git_push cs <->
     (exists o, git w git_add = Completed 0 o) /\
     exists c o, git w (git_commit m) = Completed c o /\
                 (c <> 0 -> git w git_status <> NotStarted)) /\
  (In git_status cs <->
     (exists o, git w git_add = Completed 0 o) /\
     exists c o, git w (git_commit m) = Completed c o /\ c <> 0).
Proof.
  intros Hm Hne cs. pose proof (main_with_message w m Hm Hne) as H.
  apply (f_equal fst) in H. simpl in H. fold cs in H.
  assert (Hskip : forall (x : list string) l1 l2, sublist l1 l2 ->
                    sublist (x :: l1) (x :: l2)) by (intros; by constructor).
  assert (Hcons : forall (x : list string) l1 l2, sublist l1 l2 ->
                    sublist l1 (x :: l2)) by (intros; by constructor).
  revert H. push_cases w m; simpl; intros ->;
    (split; [eauto|]);
    (split; [repeat (apply Hskip || apply Hcons || apply sublist_nil)|]);
    unfold git_add, git_commit, git_status, git_push; simpl;
    split; split; naive_solver.
Qed.

(** With a message, the script ends with status 0 exactly when
    [git push] was started and returned 0, whatever the commit returned. *)
Theorem exit_status_is_that_of_push (w : world) (m : string) :
  message strip w = Some m -> m <> "" ->
  (snd (main strip str_error w) = Exit 0 <->
     In git_push (commands (fst (main strip str_error w))) /\
     exists o, git w git_push = Completed 0 o).
Proof.
  intros Hm Hne. pose proof (main_with_message w m Hm Hne) as H.
  assert (Hp : after_push w = Exit 0 <->
               exists o, git w git_push = Completed 0 o).
  { unfold after_push. destruct (git w git_push) as [p o|].
    - destruct (Z.eqb_spec p 0) as [->|Hp].
      + split; eauto.
      + split; [done|]. intros (o' & [= ? ?]). done.
    - split; [done | by intros (o' & [=])]. }
  revert H. push_cases w m; simpl; intros [= -> ->]; rewrite ?Hp;
    unfold git_add, git_commit, git_status, git_push; simpl; naive_solver.
Qed.

(** A message that is typed is stripped, a message from the arguments is
    not: a message that [strip] empties, such as one of whitespace only, is
    refused when it is typed, and committed as it is when it is the
    argument. *)
Theorem typed_message_is_stripped (p s : string) (answers : list string -> completed)
    (input : typed) :
  strip s = "" -> s <> "" ->
  (commands (fst (main strip str_error (mkWorld [p] (Line s) answers))) = [] /\
   snd (main strip str_error (mkWorld [p] (Line s) answers)) = Exit 1) /\
  (forall o, answers git_add = Completed 0 o ->
     In (git_commit s)
        (commands (fst (main strip str_error (mkWorld [p; s] input answers))))).
Proof.
  intros Hs Hne. split.
  - apply main_empty_message. unfold message. simpl. by rewrite Hs.
  - intros o Ho.
    pose proof (main_with_message (mkWorld [p; s] input answers) s eq_refl Hne)
      as H.
    apply (f_equal fst) in H. simpl in H. rewrite Ho in H. simpl in H.
    rewrite H.
    destruct (answers (git_commit s)) as [c ?|]; [|simpl; auto].
    destruct (c =? 0); [simpl; auto|].
    destruct (answers git_status); simpl; auto.
Qed.

End push.

Lemma no_message_no_command_witness :
  AutoPush.main AutoPush.sample_strip AutoPush.sample_str_error
    (AutoPush.mkWorld ["auto_push.py"; ""] AutoPush.EOFError
       (AutoPush.sample_git 0))
  = ([AutoPush.Print "Error: Commit message cannot be empty."],
     AutoPush.Exit 1) /\
  snd (AutoPush.main AutoPush.sample_strip AutoPush.sample_str_error
         (AutoPush.mkWorld ["auto_push.py"] AutoPush.KeyboardInterrupt
            (AutoPush.sample_git 0)))
  = AutoPush.Exit 0.
Proof.
  split; [reflexivity|].
  destruct (no_message_no_command AutoPush.sample_strip AutoPush.sample_str_error
              (AutoPush.mkWorld ["auto_push.py"] AutoPush.KeyboardInterrupt
                 (AutoPush.sample_git 0))) as (_ & H & _).
  apply H; [vm_compute; discriminate | reflexivity].
Defined.

Lemma push_follows_staging_witness :
  let w := AutoPush.mkWorld ["auto_push.py"; "fix"; "bug"] AutoPush.EOFError
             (AutoPush.sample_git 1) in
  In AutoPush.git_push
    (AutoPush.commands (fst (AutoPush.main AutoPush.sample_strip AutoPush.sample_str_error w))) /\
  In AutoPush.git_status
    (AutoPush.commands (fst (AutoPush.main AutoPush.sample_strip AutoPush.sample_str_error w))).
Proof.
  intros w.
  destruct (push_follows_staging AutoPush.sample_strip AutoPush.sample_str_error w "fix bug"
              eq_refl) as (_ & _ & Hpush & Hstatus); [discriminate|].
  split.
  - apply Hpush. split; [by eexists|]. do 2 eexists. split; [reflexivity|].
    discriminate.
  - apply Hstatus. split; [by eexists|]. do 2 eexists.
    split; [reflexivity | discriminate].
Defined.

Lemma exit_status_is_that_of_push_witness :
  snd (AutoPush.main AutoPush.sample_strip AutoPush.sample_str_error
         (AutoPush.mkWorld ["auto_push.py"; "fix"; "bug"] AutoPush.EOFError
            (AutoPush.sample_git 1)))
  = AutoPush.Exit 0.
Proof.
  apply (exit_status_is_that_of_push AutoPush.sample_strip AutoPush.sample_str_error _ "fix bug");
    [reflexivity | discriminate |].
  split; [vm_compute; auto 10 | by eexists].
Defined.

Lemma typed_message_is_stripped_witness :
  snd (AutoPush.main AutoPush.sample_strip AutoPush.sample_str_error
         (AutoPush.mkWorld ["auto_push.py"] (AutoPush.Line " ")
            (AutoPush.sample_git 0)))
  = AutoPush.Exit 1 /\
  In (AutoPush.git_commit " ")
    (AutoPush.commands
       (fst (AutoPush.main AutoPush.sample_strip AutoPush.sample_str_error
               (AutoPush.mkWorld ["auto_push.py"; " "] AutoPush.EOFError
                  (AutoPush.sample_git 0))))).
Proof.
  destruct (typed_message_is_stripped AutoPush.sample_strip AutoPush.sample_str_error "auto_push.py"
              " " (AutoPush.sample_git 0) AutoPush.EOFError eq_refl)
    as [[_ H1] H2]; [discriminate|].
  split; [exact H1|]. by apply (H2 "").
Defined.

(** ** Listings and lookups *)

Section listings.
Variable EmailStr : string -> option string.

Lemma dict_get_Some_key {V : Type} (d : list (string * V)) k v :
  dict_get d k = Some v -> k ∈ dict_keys d.
Proof.
  induction d as [|[k0 v0] d IH]; simpl; [done|].
  destruct (String.eqb_spec k k0) as [->|Hne].
  - intros _. by left.
  - intros H. right. by apply IH.
Qed.

(** Every value of a dictionary is stored under some key. *)
Lemma dict_values_key {V : Type} (d : list (string * V)) v :
  NoDup (dict_keys d) -> In v (dict_values d) ->
  exists k, dict_get d k = Some v.
Proof.
  induction d as [|[k0 v0] d IH]; simpl; [done|].
  intros Hnd Hin. apply NoDup_cons in Hnd as [Hnot Hnd].
  destruct Hin as [->|Hin].
  - exists k0. by rewrite String.eqb_refl.
  - destruct (IH Hnd Hin) as (k & Hk). exists k.
    destruct (String.eqb_spec k k0) as [->|Hne]; [|done].
    destruct Hnot. by eapply dict_get_Some_key.
Qed.

Lemma py_slice_In {A : Type} (l : list A) (a b : Z) (x : A) :
  In x (py_slice l a b) -> In x l.
Proof.
  assert (Hf : forall n (k : list A), In x (firstn n k) -> In x k).
  { induction n as [|n IH]; intros [|y k]; simpl; try done.
    intros [->|H]; [by left | right; by apply IH]. }
  assert (Hs : forall n (k : list A), In x (skipn n k) -> In x k).
  { induction n as [|n IH]; intros [|y k]; simpl; try done.
    intros H. right. by apply IH. }
  unfold py_slice. intros H. apply Hf in H. by apply Hs in H.
Qed.

(** In a reachable store every record that a listing or a search answers
    can be fetched: it carries an identifier, and [get] on that identifier
    answers this very record. *)
Theorem listed_records_can_be_fetched (rs : list request) :
  let st := run EmailStr init rs in
  (forall skip limit l,
     In l (get_all_users st skip limit) ->
     exists id, User.id (user_at st l) = Some id /\ get_user st id = Ok l) /\
  (forall lower q r l,
     search_users_by_email lower st q = Ok r -> In l r ->
     exists id, User.id (user_at st l) = Some id /\ get_user st id = Ok l) /\
  (forall skip limit min_price max_price r l,
     get_all_items st skip limit min_price max_price = Ok r -> In l r ->
     exists id, Item.id (item_at st l) = Some id /\ get_item st id = Ok l).
Proof.
  intros st. pose proof (run_keyed EmailStr rs) as [Hu Hi].
  pose proof (run_keys_NoDup EmailStr rs) as [Hnu Hni].
  fold st in Hu, Hi, Hnu, Hni.
  assert (Huser : forall l, In l (dict_values (users_db st)) ->
            exists id, User.id (user_at st l) = Some id /\
                       get_user st id = Ok l).
  { intros l Hl. destruct (dict_values_key _ _ Hnu Hl) as (k & Hk).
    exists k. destruct (Hu k l Hk) as (_ & Hid & _). split; [done|].
    unfold get_user. by rewrite Hk. }
  assert (Hitem : forall l, In l (dict_values (items_db st)) ->
            exists id, Item.id (item_at st l) = Some id /\
                       get_item st id = Ok l).
  { intros l Hl. destruct (dict_values_key _ _ Hni Hl) as (k & Hk).
    exists k. destruct (Hi k l Hk) as (_ & Hid & _). split; [done|].
    unfold get_item. by rewrite Hk. }
  split; [|split].
  - intros skip limit l Hl. apply Huser. by eapply py_slice_In.
  - intros lower q r l Hs Hl. apply Huser.
    unfold search_users_by_email in Hs.
    destruct (comprehension _ _) as [r'|] eqn:E; [|done].
    injection Hs as ->. by eapply comprehension_In.
  - intros skip limit min_price max_price r l Hg Hl. apply Hitem.
    rewrite get_all_items_filter_items in Hg.
    destruct (filter_items st min_price max_price) as [fl|] eqn:E; [|done].
    injection Hg as <-. apply py_slice_In in Hl.
    unfold filter_items in E.
    destruct (apply_filter (price_ge st) min_price _) as [l1|] eqn:E1; [|done].
    assert (H1 : forall x, In x l1 -> In x (dict_values (items_db st))).
    { destruct min_price; simpl in E1.
      - by eapply comprehension_In.
      - by injection E1 as <-. }
    apply H1. destruct max_price; simpl in E.
    + by eapply comprehension_In.
    + by injection E as <-.
Qed.

End listings.

Lemma listed_records_can_be_fetched_witness :
  let st := run sample_EmailStr init two_users_run in
  exists id, User.id (user_at st 1%nat) = Some id /\ get_user st id = Ok 1%nat.
Proof.
  intros st.
  destruct (listed_records_can_be_fetched sample_EmailStr two_users_run)
    as (H & _).
  apply (H 1 5). vm_compute. by left.
Defined.

Lemma run_store_ok_witness :
  store_ok sample_EmailStr (run sample_EmailStr init two_users_run).
Proof. apply run_store_ok. reflexivity. Defined.

Lemma stored_records_carry_their_key_witness :
  let st := run sample_EmailStr init
              (two_users_run ++ [PutUser "u-2" null_name])%list in
  User.id (user_at st 1%nat) = Some "u-2" /\
  is_Some (User.created_at (user_at st 1%nat)).
Proof.
  intros st.
  destruct (stored_records_carry_their_key sample_EmailStr
              (two_users_run ++ [PutUser "u-2" null_name])%list) as [H _].
  apply H. reflexivity.
Defined.

Lemma search_raises_iff_witness :
  let st := run sample_EmailStr init
              (two_users_run
               ++ [PutUser "u-2" (UserUpdate.mk Absent (Given None) Absent)])%list in
  search_users_by_email sample_lower st "ramesh" = ServerError.
Proof.
  intros st. apply (search_raises_iff sample_lower st "ramesh").
  exists 1%nat. split; [vm_compute; auto | reflexivity].
Defined.

Lemma listing_raises_iff_witness :
  let st := run sample_EmailStr init
              (setup_run ++ [PutItem "i-1" null_price])%list in
  get_all_items st 0 10 None (Some 100%float) = ServerError /\
  get_all_items st 0 10 None None = Ok [1%nat].
Proof.
  intros st. destruct (listing_raises_iff st 0 10 None (Some 100%float))
    as [H _].
  split; [|reflexivity]. apply H. split; [right; eauto|].
  exists 1%nat. split; [vm_compute; auto | reflexivity].
Defined.

(** ** The values of the statistics *)

Section statistics_values.
Variable isoformat : datetime -> string.
Variable float_of_int : Z -> option float.
Variable int_truediv : Z -> Z -> float.
Variable fsum : list float -> float.
Variable round2 : float -> float.

Lemma generate_Forall2 {A B C : Type} (f : A -> option B) (g : C -> B)
    (l : list A) (rows : list C) :
  Forall2 (fun x row => f x = Some (g row)) l rows ->
  generate f l = Some (List.map g rows).
Proof.
  induction 1 as [|x row l rows Hx _ IH]; simpl; [done|].
  by rewrite Hx, IH.
Qed.

(** When every stored item has a price and a quantity that converts to a
    float, as [rows] lists them in the order of the collection, the
    statistics answer the two counts, the sum of the products of price
    and quantity rounded to two places, and the sum of the prices divided
    by their number and rounded to two places, or the integer 0 when
    there is no item. The sums, the products and the quotient are those of
    binary64. *)
Theorem statistics_of_items (st : state) (t : datetime)
    (rows : list (float * Z * float)) (count : float) :
  Forall2 (fun l row =>
             Item.price (item_at st l) = Some row.1.1 /\
             Item.quantity (item_at st l) = Some row.1.2 /\
             float_of_int row.1.2 = Some row.2)
    (dict_values (items_db st)) rows ->
  float_of_int (len (items_db st)) = Some count ->
  get_statistics isoformat float_of_int int_truediv fsum round2 st t
  = Ok (Stats.mk (len (users_db st)) (len rows)
          (py_round2 round2 (py_sum fsum (List.map row_value rows)))
          (match rows with
           | [] => Int 0
           | _ :: _ =>
               Float (round2 (PrimFloat.div (fsum (List.map row_price rows))
                                count))
           end)
          (isoformat t)).
Proof.
  intros Hrows Hcount.
  assert (Hlen : len (items_db st) = len rows).
  { unfold len. f_equal. apply Forall2_length in Hrows.
    unfold dict_values in Hrows. by rewrite length_map in Hrows. }
  unfold get_statistics.
  rewrite (generate_Forall2 _ row_value _ rows).
  2: { eapply Forall2_impl; [exact Hrows|]. intros l row (Hp & Hq & Hf).
       unfold price_times_quantity, row_value. by rewrite Hp, Hq, Hf. }
  rewrite (generate_Forall2 _ row_price _ rows).
  2: { eapply Forall2_impl; [exact Hrows|]. by intros l row (Hp & _). }
  rewrite Hlen. destruct rows as [|row rows]; [done|].
  assert (Hpos : (0 <? len (row :: rows)) = true).
  { apply Z.ltb_lt. unfold len. simpl length. lia. }
  rewrite Hpos, <- Hlen. unfold truediv. simpl py_sum. by rewrite Hcount.
Qed.

End statistics_values.

Lemma statistics_of_items_witness :
  get_statistics sample_isoformat py_float_of_int py_int_truediv fsum_left
    py_round2_float example_items 0
  = Ok (Stats.mk 0 2 (Float 40%float) (Float 15%float) "1970-01-01T00:00:00").
Proof.
  rewrite (statistics_of_items sample_isoformat py_float_of_int py_int_truediv
             fsum_left py_round2_float example_items 0
             [(10%float, 2, 2%float); (20%float, 1, 1%float)] 2%float).
  - vm_compute. reflexivity.
  - repeat constructor.
  - reflexivity.
Defined.

(** The example of the items priced 10 and 20 with the quantities 2 and 1:
    the total value is 40.0 and the average price 15.0, with the sum of
    either version of CPython. *)
Lemma statistics_of_the_example (t : datetime) :
  get_statistics sample_isoformat py_float_of_int py_int_truediv fsum_left
    py_round2_float example_items t
  = Ok (Stats.mk 0 2 (Float 40%float) (Float 15%float) (sample_isoformat t)) /\
  get_statistics sample_isoformat py_float_of_int py_int_truediv
    fsum_compensated py_round2_float example_items t
  = Ok (Stats.mk 0 2 (Float 40%float) (Float 15%float) (sample_isoformat t)).
Proof. split; vm_compute; reflexivity. Qed.

(** C6, at the run that creates a user and an item and then sends
    [PUT /items/i-1] with the body [{"price": null}]: before the update the
    statistics answer; after it the stored item has no price and the
    statistics raise, whatever the builtins compute. *)
Theorem statistics_after_null_price_raise (isoformat : datetime -> string)
    (float_of_int : Z -> option float) (int_truediv : Z -> Z -> float)
    (fsum : list float -> float) (round2 : float -> float) (t : datetime) :
  let st := run sample_EmailStr init setup_run in
  let st' := run sample_EmailStr st [PutItem "i-1" null_price] in
  (exists s,
     get_statistics isoformat py_float_of_int py_int_truediv fsum_left
       py_round2_float st t = Ok s /\
     Stats.users_total s = 1 /\ Stats.items_total s = 1) /\
  get_item st' "i-1" = Ok 1%nat /\
  Item.price (item_at st' 1%nat) = None /\
  get_statistics isoformat float_of_int int_truediv fsum round2 st' t
  = ServerError.
Proof.
  intros st st'. split; [|split; [reflexivity|split; [reflexivity|]]].
  - eexists. split; [|split]; [vm_compute; reflexivity|reflexivity..].
  - unfold get_statistics.
    change (dict_values (items_db st')) with [1%nat].
    unfold generate, price_times_quantity.
    by change (Item.price (item_at st' 1%nat)) with (@None float).
Qed.
